(** * Forecast-driven periodic-review inventory control

    A shallow embedding of [forecast_periodic_review_inventory]
    (src/utils.py) and the properties of its output table.

    Modelling conventions.
    - A Python/NumPy float is a [num]: an exact rational or [NaN].
      Rounding and infinities are not modelled; NaN propagation and the
      fact that every comparison with NaN is false are.
    - The data frame carries the default [RangeIndex], so a label is a
      position; a column is a list, a row position a [nat], and the
      integers of the signature ([lead_time], [review_period],
      [rolling_window]) are [Z], as Python gives them no bound.
    - Python exceptions are values of [exn]; a computation that may raise
      has type [result A].
    - The loop writes row [t] for [t] in [range(len(df))] only, so under
      the default index every [df.loc[t, c] = v] is an in-range list
      update; tables with another index are outside the model.
    - [plot] is taken as [False]: of the plotting branch only the
      selections it makes from the table are modelled, further down.
    - [np.sqrt] on a non-negative rational is a parameter [sqrtQ] of the
      development: nothing below depends on its values. *)

From Stdlib Require Import ZArith QArith Lqa Lia.
From stdpp Require Import base list.

Open Scope Z_scope.

(** ** Numbers *)

Inductive num : Type :=
  | Num (q : Q)
  | NaN.

Definition of_int (z : Z) : num := Num (inject_Z z).

Definition lift2 (f : Q -> Q -> Q) (x y : num) : num :=
  match x, y with
  | Num a, Num b => Num (f a b)
  | _, _ => NaN
  end.

Definition fadd : num -> num -> num := lift2 Qplus.
Definition fsub : num -> num -> num := lift2 Qminus.
Definition fmul : num -> num -> num := lift2 Qmult.
Definition fdiv : num -> num -> num := lift2 Qdiv.

(** Python's [x <= y], [x < y] and [x > y]: false as soon as one side is NaN. *)
Definition fle (x y : num) : bool :=
  match x, y with
  | Num a, Num b => Qle_bool a b
  | _, _ => false
  end.

Definition flt (x y : num) : bool :=
  match x, y with
  | Num a, Num b => negb (Qle_bool b a)
  | _, _ => false
  end.

Definition fgt (x y : num) : bool := flt y x.

(** [pd.notna] *)
Definition notna (x : num) : bool :=
  match x with Num _ => true | NaN => false end.

(** Python's [max(0, x)]: the first argument is kept unless [x > 0]. *)
Definition py_max0 (x : num) : num :=
  if fgt x (Num 0) then x else Num 0.

(** Python's built-in [sum] over a list of floats (no NaN skipping). *)
Definition py_sum (l : list num) : num := foldl fadd (Num 0) l.

(** ** Exceptions *)

Inductive exn : Type :=
  | IndexError
  | ZeroDivisionError.

Definition result (A : Type) : Type := exn + A.

Definition ret {A} (a : A) : result A := inr a.
Definition raise {A} (e : exn) : result A := inl e.
Definition bind {A B} (m : result A) (k : A -> result B) : result B :=
  match m with
  | inl e => inl e
  | inr a => k a
  end.

Notation "x <- m ;; k" := (bind m (fun x => k))
  (at level 100, m at next level, right associativity).

(** Python's [a % b] on integers: the sign of the divisor, and
    [ZeroDivisionError] when the divisor is 0. *)
Definition py_mod (a b : Z) : result Z :=
  if b =? 0 then raise ZeroDivisionError else ret (a mod b).

(** [list.pop(0)] *)
Definition pop0 {A} (l : list A) : result (A * list A) :=
  match l with
  | [] => raise IndexError
  | a :: q => ret (a, q)
  end.

(** ** pandas Series as lists *)

Definition dropna (col : list num) : list num := filter (fun x => notna x = true) col.

(** [Series.sum()] skips NaN and is 0 on an empty selection. *)
Definition series_sum (col : list num) : num := py_sum (dropna col).

(** [Series.mean()] skips NaN and is NaN when nothing is left. *)
Definition series_mean (col : list num) : num :=
  match dropna col with
  | [] => NaN
  | vs => fdiv (py_sum vs) (of_int (Z.of_nat (length vs)))
  end.

(** [Series.last_valid_index()]: position of the last non-NaN entry. *)
Fixpoint last_valid_from (i : nat) (col : list num) : option nat :=
  match col with
  | [] => None
  | x :: r =>
      match last_valid_from (S i) r with
      | Some j => Some j
      | None => if notna x then Some i else None
      end
  end.

Definition last_valid_index (col : list num) : option nat := last_valid_from 0 col.

(** Bounds of a Python slice [start:stop] (step 1) on a sequence of length [len]. *)
Definition slice_bound (len i : Z) : Z :=
  if i <? 0 then Z.max (i + len) 0 else Z.min i len.

(** [col.iloc[start:stop]] *)
Definition iloc {A} (start stop : Z) (col : list A) : list A :=
  let len := Z.of_nat (length col) in
  let a := slice_bound len start in
  let b := slice_bound len stop in
  take (Z.to_nat (b - a)) (drop (Z.to_nat a) col).

(** [df.loc[k:, c] = v] on a [RangeIndex] *)
Definition assign_from {A} (k : nat) (v : A) (col : list A) : list A :=
  take k col ++ replicate (length col - k) v.

(** [df.loc[:k-1, c] = new[:k-1]] (the label slice [:k-1] is inclusive) *)
Definition assign_upto {A} (k : nat) (new col : list A) : list A :=
  take k new ++ drop k col.

(** ** The data frame *)

Record Row : Type := mkRow {
  row_period : Z;
  row_demand : num;
  row_forecast : num
}.

Record DataFrame : Type := mkDF {
  period : list Z;
  demand : list num;
  forecast : list num;
  order_quantity : list num;
  on_hand_inventory : list num;
  safety_stock_target : list num;
  below_safety_stock : list Z;
  stockout : list Z;
  ending_inventory : list num;
  error : list num;
  is_projection : list Z
}.

Definition set_order_quantity (c : list num) (d : DataFrame) : DataFrame :=
  mkDF (period d) (demand d) (forecast d) c (on_hand_inventory d)
       (safety_stock_target d) (below_safety_stock d) (stockout d)
       (ending_inventory d) (error d) (is_projection d).

Definition set_on_hand_inventory (c : list num) (d : DataFrame) : DataFrame :=
  mkDF (period d) (demand d) (forecast d) (order_quantity d) c
       (safety_stock_target d) (below_safety_stock d) (stockout d)
       (ending_inventory d) (error d) (is_projection d).

Definition set_safety_stock_target (c : list num) (d : DataFrame) : DataFrame :=
  mkDF (period d) (demand d) (forecast d) (order_quantity d) (on_hand_inventory d)
       c (below_safety_stock d) (stockout d)
       (ending_inventory d) (error d) (is_projection d).

Definition set_below_safety_stock (c : list Z) (d : DataFrame) : DataFrame :=
  mkDF (period d) (demand d) (forecast d) (order_quantity d) (on_hand_inventory d)
       (safety_stock_target d) c (stockout d)
       (ending_inventory d) (error d) (is_projection d).

Definition set_stockout (c : list Z) (d : DataFrame) : DataFrame :=
  mkDF (period d) (demand d) (forecast d) (order_quantity d) (on_hand_inventory d)
       (safety_stock_target d) (below_safety_stock d) c
       (ending_inventory d) (error d) (is_projection d).

Definition set_ending_inventory (c : list num) (d : DataFrame) : DataFrame :=
  mkDF (period d) (demand d) (forecast d) (order_quantity d) (on_hand_inventory d)
       (safety_stock_target d) (below_safety_stock d) (stockout d)
       c (error d) (is_projection d).

Definition set_error (c : list num) (d : DataFrame) : DataFrame :=
  mkDF (period d) (demand d) (forecast d) (order_quantity d) (on_hand_inventory d)
       (safety_stock_target d) (below_safety_stock d) (stockout d)
       (ending_inventory d) c (is_projection d).

Definition set_is_projection (c : list Z) (d : DataFrame) : DataFrame :=
  mkDF (period d) (demand d) (forecast d) (order_quantity d) (on_hand_inventory d)
       (safety_stock_target d) (below_safety_stock d) (stockout d)
       (ending_inventory d) (error d) c.

(** [df.loc[t, c]] for a float column; [t] is always in range where the
    source reads it. *)
Definition at_ (col : list num) (t : nat) : num := default NaN (col !! t).

(** The local state of the period loop. *)
Record State : Type := mkState {
  st_df : DataFrame;
  current_ss_target : num;
  on_hand : num;
  in_transit_orders : list num
}.

(** A rational approximation of the square root (three decimals, rounded
    down), used to run the model on concrete tables. *)
Definition Qsqrt_approx (q : Q) : Q :=
  Z.sqrt (Qnum q * 1000000 / Z.pos (Qden q)) # 1000.

(** The scenario table of the specification: six periods, three of them
    with actual demand. *)
Definition scenario_df : list Row :=
  [ mkRow 0 (Num 10) (Num 10); mkRow 1 (Num 10) (Num 10); mkRow 2 (Num 10) (Num 10);
    mkRow 3 NaN (Num 10); mkRow 4 NaN (Num 10); mkRow 5 NaN (Num 10) ].

(** The same table with a hole in the demand of period 1. *)
Definition gap_df : list Row :=
  [ mkRow 0 (Num 10) (Num 10); mkRow 1 NaN (Num 10); mkRow 2 (Num 10) (Num 10);
    mkRow 3 NaN (Num 10); mkRow 4 NaN (Num 10); mkRow 5 NaN (Num 10) ].

(** The same table without a forecast for periods 1 and 4. *)
Definition missing_forecast_df : list Row :=
  [ mkRow 0 (Num 10) (Num 10); mkRow 1 (Num 10) NaN; mkRow 2 (Num 10) (Num 10);
    mkRow 3 NaN (Num 10); mkRow 4 NaN NaN; mkRow 5 NaN (Num 10) ].

(** A forecast-only table. *)
Definition no_history_df : list Row :=
  [ mkRow 0 NaN (Num 10); mkRow 1 NaN (Num 20); mkRow 2 NaN (Num 30) ].

(** Five periods of actual demand with forecast errors 2, -2, 3, 0, 0. *)
Definition history_df : list Row :=
  [ mkRow 0 (Num 10) (Num 12); mkRow 1 (Num 10) (Num 8); mkRow 2 (Num 10) (Num 13);
    mkRow 3 (Num 10) (Num 10); mkRow 4 (Num 10) (Num 10) ].

Section Simulation.

(** [np.sqrt] on the non-negative rationals. *)
Variable sqrtQ : Q -> Q.

Definition np_sqrt (x : num) : num :=
  match x with
  | Num q => if Qle_bool 0 q then Num (sqrtQ q) else NaN
  | NaN => NaN
  end.

(** [np.std] of a Series without NaN: the population standard deviation
    ([ddof = 0]), NaN on an empty one. *)
Definition np_std (xs : list num) : num :=
  let m := series_mean xs in
  np_sqrt (series_mean (map (fun x => fmul (fsub x m) (fsub x m)) xs)).

(** The arguments of the call, in the order of the signature. *)
Variable df : list Row.
Variable lead_time : Z.
Variable review_period : Z.
Variable safety_factor : num.
Variable initial_inventory : num.
Variable use_rolling_ss : bool.
Variable rolling_window : option Z.
Variable include_review_period_in_ss : bool.

Definition n_periods : nat := length df.

(** Lines 68-79: the copy of the input with the new columns initialised. *)
Definition df_init : DataFrame :=
  mkDF (map row_period df) (map row_demand df) (map row_forecast df)
       (replicate n_periods (Num 0)) (replicate n_periods (Num 0))
       (replicate n_periods (Num 0)) (replicate n_periods 0)
       (replicate n_periods 0) (replicate n_periods (Num 0))
       (replicate n_periods NaN) (replicate n_periods 0).

(** Lines 82-84 *)
Definition last_actual_period : Z :=
  match last_valid_index (demand df_init) with
  | Some i => Z.of_nat i
  | None => -1
  end.

(** Lines 87-92: errors on the actual rows, projection flag on the others. *)
Definition df_marked : DataFrame :=
  let k := Z.to_nat (last_actual_period + 1) in
  let d1 :=
    set_error (assign_upto k (zip_with fsub (forecast df_init) (demand df_init))
                           (error df_init)) df_init in
  set_is_projection (assign_from k 1 (is_projection d1)) d1.

(** Lines 95-101 *)
Definition std_error_all : num :=
  let historical_errors := dropna (error df_marked) in
  if (0 <? length historical_errors)%nat then np_std historical_errors
  else
    let avg_forecast := series_mean (forecast df_marked) in
    if fgt avg_forecast (Num 0) then fmul (Num (2 # 10)) avg_forecast else Num 0.

(** Lines 104-107 *)
Definition time_factor : num :=
  if include_review_period_in_ss then np_sqrt (of_int (lead_time + review_period))
  else np_sqrt (of_int lead_time).

(** Line 109 *)
Definition base_safety_stock : num :=
  fmul (fmul safety_factor std_error_all) time_factor.

(** Lines 111-112 *)
Definition rolling_window_resolved : Z :=
  match rolling_window with
  | Some w => w
  | None => 2 * review_period
  end.

(** Lines 115-118 *)
Definition state_init : State :=
  mkState (set_safety_stock_target (replicate n_periods base_safety_stock) df_marked)
          base_safety_stock
          initial_inventory
          (replicate (Z.to_nat lead_time) (Num 0)).

(** Lines 122-127: the guard of the rolling update, with Python's
    left-to-right short-circuit evaluation of [and]. *)
Definition rolling_due (t : nat) : result bool :=
  if use_rolling_ss then
    if rolling_window_resolved <=? Z.of_nat t then
      m <- py_mod (Z.of_nat t) rolling_window_resolved ;;
      ret ((m =? 0) && (Z.of_nat t <=? last_actual_period))
    else ret false
  else ret false.

(** Lines 128-129 *)
Definition recent_errors (d : DataFrame) (t : nat) : list num :=
  dropna (iloc (Z.max 0 (Z.of_nat t - rolling_window_resolved)) (Z.of_nat t) (error d)).

(** Lines 122-133 *)
Definition rolling_update (t : nat) (s : State) : result State :=
  due <- rolling_due t ;;
  if (due : bool) then
    let recent := recent_errors (st_df s) t in
    if (0 <? length recent)%nat then
      let std_error_rolling := np_std recent in
      let target := fmul (fmul safety_factor std_error_rolling) time_factor in
      ret (mkState
             (set_safety_stock_target
                (assign_from t target (safety_stock_target (st_df s))) (st_df s))
             target (on_hand s) (in_transit_orders s))
    else ret s
  else ret s.

(** Lines 148-149 *)
Definition future_periods (t : nat) : Z :=
  Z.min (lead_time + review_period) (Z.of_nat n_periods - Z.of_nat t).

Definition future_window (forecast_col : list num) (t : nat) : list num :=
  iloc (Z.of_nat t) (Z.of_nat t + future_periods t) forecast_col.

(** Lines 144-155: the quantity ordered at a review period. *)
Definition order_qty_at (forecast_col : list num) (target on_hand_inventory : num)
    (in_transit : list num) (t : nat) : num :=
  let inventory_position := fadd on_hand_inventory (py_sum in_transit) in
  let future_demand := series_sum (future_window forecast_col t) in
  let order_up_to_level := fadd future_demand target in
  py_max0 (fsub order_up_to_level inventory_position).

(** Lines 162-165 *)
Definition realized_demand (d : DataFrame) (t : nat) : num :=
  if Z.of_nat t <=? last_actual_period then at_ (demand d) t else at_ (forecast d) t.

(** Lines 135-140: the oldest order of the queue arrives. *)
Definition receive_order (t : nat) (s : State) : result State :=
  popped <- pop0 (in_transit_orders s) ;;
  let arriving_order := fst popped in
  let oh := fadd (on_hand s) arriving_order in
  ret (mkState
         (set_on_hand_inventory (<[t := oh]> (on_hand_inventory (st_df s))) (st_df s))
         (current_ss_target s) oh (snd popped)).

(** Lines 142-159: an order on review periods, a zero on the others. *)
Definition place_order (t : nat) (s : State) : result State :=
  m <- py_mod (Z.of_nat t) review_period ;;
  if m =? 0 then
    let order_qty :=
      order_qty_at (forecast (st_df s)) (current_ss_target s) (on_hand s)
                   (in_transit_orders s) t in
    ret (mkState
           (set_order_quantity (<[t := order_qty]> (order_quantity (st_df s))) (st_df s))
           (current_ss_target s) (on_hand s) (in_transit_orders s ++ [order_qty]))
  else
    ret (mkState (st_df s) (current_ss_target s) (on_hand s)
                 (in_transit_orders s ++ [Num 0])).

(** Lines 161-182: demand is served from stock, or lost. *)
Definition fulfil_demand (t : nat) (s : State) : State :=
  let demand_t := realized_demand (st_df s) t in
  let served := fle demand_t (on_hand s) in
  let oh := if served then fsub (on_hand s) demand_t else Num 0 in
  let stockout_t := if served then 0 else 1 in
  let below_ss := if flt oh (current_ss_target s) then 1 else 0 in
  let d1 := set_ending_inventory (<[t := oh]> (ending_inventory (st_df s))) (st_df s) in
  let d2 := set_stockout (<[t := stockout_t]> (stockout d1)) d1 in
  let d3 := set_below_safety_stock (<[t := below_ss]> (below_safety_stock d2)) d2 in
  mkState d3 (current_ss_target s) oh (in_transit_orders s).

(** Lines 120-182: one iteration of the period loop. *)
Definition period_step (t : nat) (s : State) : result State :=
  s1 <- rolling_update t s ;;
  s2 <- receive_order t s1 ;;
  s3 <- place_order t s2 ;;
  ret (fulfil_demand t s3).

(** [for t in range(...)] over a list of period positions. *)
Fixpoint run_periods (ts : list nat) (s : State) : result State :=
  match ts with
  | [] => ret s
  | t :: r => s' <- period_step t s ;; run_periods r s'
  end.

(** The state after the first [k] iterations. *)
Definition run_prefix (k : nat) : result State := run_periods (seq 0 k) state_init.

(** The simulator (plotting left out: it does not touch the table). *)
Definition forecast_periodic_review_inventory : result DataFrame :=
  s <- run_periods (seq 0 n_periods) state_init ;;
  ret (st_df s).

(** ** Reading the output table

    The quantities a period's row is built from, read back from the
    columns of a table [d]. *)

(** Stock left at the end of the previous period. *)
Definition prev_end (d : DataFrame) (t : nat) : num :=
  match t with
  | O => initial_inventory
  | S t' => at_ (ending_inventory d) t'
  end.

(** The quantity put on order at position [i]; before the first period the
    pipeline holds the initial zeros. *)
Definition placed (d : DataFrame) (i : Z) : num :=
  if i <? 0 then Num 0 else at_ (order_quantity d) (Z.to_nat i).

(** What arrives at period [t], and what is still on its way then. *)
Definition arrival (d : DataFrame) (t : nat) : num :=
  placed d (Z.of_nat t - lead_time).

Definition pipeline_from (d : DataFrame) (t : nat) (j0 : nat) : list num :=
  map (fun j => placed d (Z.of_nat t - lead_time + Z.of_nat j))
      (seq j0 (Z.to_nat lead_time - j0)).

Definition pipeline (d : DataFrame) (t : nat) : list num := pipeline_from d t 1.

(** ** The rolling target as the specification words it

    Recalculation is due at [t] when rolling is enabled,
    [t >= rolling_window], [t mod rolling_window = 0] and
    [t <= last_actual_period]; it uses the defined errors at positions
    [t - rolling_window, t). *)
Definition spec_trigger (t : nat) : bool :=
  use_rolling_ss
  && (rolling_window_resolved <=? Z.of_nat t)
  && (Z.of_nat t mod rolling_window_resolved =? 0)
  && (Z.of_nat t <=? last_actual_period).

Definition spec_window (t : nat) : list num :=
  dropna (map (at_ (error df_marked))
              (seq (t - Z.to_nat rolling_window_resolved)
                   (Z.to_nat rolling_window_resolved))).

(** [spec_target k]: the target in force once the update stage of periods
    [0 .. k-1] has run. *)
Fixpoint spec_target (k : nat) : num :=
  match k with
  | O => base_safety_stock
  | S t =>
      if spec_trigger t then
        match spec_window t with
        | [] => spec_target t
        | es => fmul (fmul safety_factor (np_std es)) time_factor
        end
      else spec_target t
  end.

(** The row of period [t] in terms of the rows before it. *)
Definition period_record (d : DataFrame) (t : nat) : Prop :=
  let oh := at_ (on_hand_inventory d) t in
  let ss := at_ (safety_stock_target d) t in
  on_hand_inventory d !! t = Some (fadd (prev_end d t) (arrival d t))
  /\ order_quantity d !! t =
       Some (if Z.of_nat t mod review_period =? 0
             then order_qty_at (forecast d) ss oh (pipeline d t) t
             else Num 0)
  /\ ending_inventory d !! t =
       Some (if fle (realized_demand d t) oh then fsub oh (realized_demand d t) else Num 0)
  /\ stockout d !! t = Some (if fle (realized_demand d t) oh then 0 else 1)
  /\ below_safety_stock d !! t =
       Some (if flt (at_ (ending_inventory d) t) ss then 1 else 0)
  /\ safety_stock_target d !! t = Some (spec_target (S t)).

(** ** The loop invariant *)

Definition cols_fixed (d : DataFrame) : Prop :=
  period d = period df_marked
  /\ demand d = demand df_marked
  /\ forecast d = forecast df_marked
  /\ error d = error df_marked
  /\ is_projection d = is_projection df_marked.

Definition cols_length (d : DataFrame) : Prop :=
  length (order_quantity d) = n_periods
  /\ length (on_hand_inventory d) = n_periods
  /\ length (safety_stock_target d) = n_periods
  /\ length (below_safety_stock d) = n_periods
  /\ length (stockout d) = n_periods
  /\ length (ending_inventory d) = n_periods.

(** What holds of the state when [k] iterations have run. *)
Definition loop_inv (k : nat) (s : State) : Prop :=
  cols_fixed (st_df s)
  /\ cols_length (st_df s)
  /\ in_transit_orders s = pipeline_from (st_df s) k 0
  /\ (forall i, (k <= i)%nat -> (i < n_periods)%nat ->
        order_quantity (st_df s) !! i = Some (Num 0))
  /\ current_ss_target s = spec_target k
  /\ (forall i, (k <= i)%nat -> (i < n_periods)%nat ->
        safety_stock_target (st_df s) !! i = Some (spec_target k))
  /\ on_hand s = prev_end (st_df s) k
  /\ (forall t, (t < k)%nat -> period_record (st_df s) t).

(** Two tables with the same rows up to period [t]. *)
Definition agree_upto (t : nat) (d d' : DataFrame) : Prop :=
  demand d' = demand d
  /\ forecast d' = forecast d
  /\ forall i, (i <= t)%nat ->
       order_quantity d' !! i = order_quantity d !! i
       /\ on_hand_inventory d' !! i = on_hand_inventory d !! i
       /\ safety_stock_target d' !! i = safety_stock_target d !! i
       /\ below_safety_stock d' !! i = below_safety_stock d !! i
       /\ stockout d' !! i = stockout d !! i
       /\ ending_inventory d' !! i = ending_inventory d !! i.

(** A number that is present and not below zero. *)
Definition nonneg (x : num) : Prop :=
  match x with
  | Num q => (0 <= q)%Q
  | NaN => False
  end.

(** The calls on which the loop body raises nothing. *)
Definition valid_call : Prop :=
  1 <= lead_time
  /\ review_period <> 0
  /\ (use_rolling_ss = true -> rolling_window_resolved <> 0).

(** ** The selections the plot draws (lines 185-312)

    Only the data the plotting branch selects from the table is modelled,
    not the drawing. *)

(** Lines 191-192 and 251 *)
Definition hist_mask (d : DataFrame) : list bool :=
  map (fun v => v =? 0) (is_projection d).

Definition proj_mask (d : DataFrame) : list bool :=
  map (fun v => v =? 1) (is_projection d).

Definition stockout_mask (d : DataFrame) : list bool :=
  map (fun v => v =? 1) (stockout d).

(** [mask1 & mask2] *)
Definition mask_and (m1 m2 : list bool) : list bool := zip_with andb m1 m2.

(** [mask.any()] *)
Definition mask_any (m : list bool) : bool := existsb (fun b => b) m.

(** Boolean indexing [col[mask]], the mask being as long as the column. *)
Fixpoint select {A} (mask : list bool) (col : list A) : list A :=
  match mask, col with
  | b :: m, x :: c => if b then x :: select m c else select m c
  | _, _ => []
  end.

(** [s.iloc[0]] and [s.iloc[-1]] *)
Definition iloc_first {A} (l : list A) : result A :=
  match l with
  | [] => raise IndexError
  | x :: _ => ret x
  end.

Definition iloc_last {A} (l : list A) : result A :=
  match last l with
  | None => raise IndexError
  | Some x => ret x
  end.

(** Lines 204-214: the two end points of the segment that joins the last
    historical point to the first projected one, when both exist. *)
Definition bridge (d : DataFrame) : result (option ((Z * Z) * (num * num))) :=
  if mask_any (proj_mask d) then
    if mask_any (hist_mask d) then
      p1 <- iloc_last (select (hist_mask d) (period d)) ;;
      p2 <- iloc_first (select (proj_mask d) (period d)) ;;
      v1 <- iloc_last (select (hist_mask d) (ending_inventory d)) ;;
      v2 <- iloc_first (select (proj_mask d) (ending_inventory d)) ;;
      ret (Some ((p1, p2), (v1, v2)))
    else ret None
  else ret None.

(** Lines 273 and 306: the guard of the vertical line at the start of the
    projection, drawn at [periods[last_actual_period + 1]]. *)
Definition projection_line_due (d : DataFrame) : bool :=
  (0 <=? last_actual_period)
  && (last_actual_period <? Z.of_nat (length (period d)) - 1).

(** Lines 253-270: the rows of the two stockout scatters. *)
Definition stockout_actual {A} (d : DataFrame) (col : list A) : list A :=
  select (mask_and (stockout_mask d) (hist_mask d)) col.

Definition stockout_projected {A} (d : DataFrame) (col : list A) : list A :=
  select (mask_and (stockout_mask d) (proj_mask d)) col.

(** * Properties *)

(** ** Numbers *)

Lemma py_max0_nonneg (x : num) : nonneg (py_max0 x).
Proof.
  unfold py_max0, fgt, flt. destruct x as [q|]; simpl; [|lra].
  destruct (Qle_bool q 0) eqn:E; simpl; [lra|].
  destruct (Qlt_le_dec 0 q) as [H|H]; [lra|].
  apply Qle_bool_iff in H. congruence.
Qed.

Lemma fle_fsub_nonneg (d h : num) : fle d h = true -> nonneg (fsub h d).
Proof.
  destruct d as [a|], h as [b|]; simpl; try discriminate.
  intros H. apply Qle_bool_iff in H. lra.
Qed.

Lemma fadd_nonneg (x y : num) : nonneg x -> nonneg y -> nonneg (fadd x y).
Proof. destruct x, y; simpl; try (intros; contradiction). intros; lra. Qed.

(** ** Columns *)

Lemma at_lookup (col : list num) (t : nat) (v : num) :
  col !! t = Some v -> at_ col t = v.
Proof. unfold at_. now intros ->. Qed.

Lemma lookup_at (col : list num) (t : nat) :
  (t < length col)%nat -> col !! t = Some (at_ col t).
Proof.
  intros H. apply lookup_lt_is_Some in H as [v Hv].
  unfold at_. now rewrite Hv.
Qed.

Lemma length_assign_from {A} (k : nat) (v : A) (col : list A) :
  length (assign_from k v col) = length col.
Proof. unfold assign_from. rewrite length_app, length_take, length_replicate. lia. Qed.

Lemma lookup_assign_from_lt {A} (k : nat) (v : A) (col : list A) (i : nat) :
  (i < k)%nat -> assign_from k v col !! i = col !! i.
Proof.
  intros H. unfold assign_from.
  destruct (decide (i < length col)%nat) as [Hi|Hi].
  - rewrite lookup_app_l by (rewrite length_take; lia). now apply lookup_take_lt.
  - rewrite (proj2 (lookup_ge_None col i)) by lia.
    apply lookup_ge_None. rewrite length_app, length_take, length_replicate. lia.
Qed.

Lemma lookup_assign_from_ge {A} (k : nat) (v : A) (col : list A) (i : nat) :
  (k <= i)%nat -> (i < length col)%nat -> assign_from k v col !! i = Some v.
Proof.
  intros H1 H2. unfold assign_from.
  rewrite lookup_app_r by (rewrite length_take; lia).
  apply lookup_replicate_2. rewrite length_take. lia.
Qed.

(** A slice inside the column is a [take] of a [drop]. *)
Lemma iloc_inside {A} (a b : nat) (col : list A) :
  (a <= b)%nat -> (b <= length col)%nat ->
  iloc (Z.of_nat a) (Z.of_nat b) col = take (b - a) (drop a col).
Proof.
  intros H1 H2. unfold iloc, slice_bound.
  destruct (Z.ltb_spec (Z.of_nat a) 0); [lia|].
  destruct (Z.ltb_spec (Z.of_nat b) 0); [lia|].
  rewrite !Z.min_l by lia. rewrite Nat2Z.id. f_equal. lia.
Qed.

(** A slice whose start is not before its stop is empty. *)
Lemma iloc_empty {A} (a b : Z) (col : list A) :
  0 <= b <= a -> iloc a b col = [].
Proof.
  intros H. unfold iloc, slice_bound.
  destruct (Z.ltb_spec a 0); [lia|]. destruct (Z.ltb_spec b 0); [lia|].
  replace (Z.to_nat _) with 0%nat by lia. reflexivity.
Qed.

Lemma take_drop_seq (col : list num) (a m : nat) :
  (a + m <= length col)%nat ->
  take m (drop a col) = map (at_ col) (seq a m).
Proof.
  intros H. apply list_eq. intros i.
  change (map (at_ col) (seq a m)) with (at_ col <$> seq a m).
  rewrite list_lookup_fmap.
  destruct (decide (i < m)%nat) as [Hi|Hi].
  - rewrite lookup_take_lt, lookup_drop by lia.
    rewrite (proj2 (lookup_seq a m i (a + i)%nat)) by lia. simpl.
    apply lookup_at. lia.
  - rewrite lookup_take_ge by lia.
    destruct (seq a m !! i) eqn:E; [|reflexivity].
    apply lookup_seq in E. lia.
Qed.

(** ** Reading rows back *)

Lemma placed_agree (d d' : DataFrame) (t : nat) (i : Z) :
  (forall j, (j < t)%nat -> order_quantity d' !! j = order_quantity d !! j) ->
  i < Z.of_nat t -> placed d' i = placed d i.
Proof.
  intros H Hi. unfold placed, at_.
  destruct (Z.ltb_spec i 0); [reflexivity|].
  rewrite H by lia. reflexivity.
Qed.

Lemma pipeline_from_agree (d d' : DataFrame) (t t' j0 : nat) :
  (forall j, (j < t')%nat -> order_quantity d' !! j = order_quantity d !! j) ->
  Z.of_nat t + Z.of_nat (Z.to_nat lead_time) - lead_time - 1 < Z.of_nat t' ->
  pipeline_from d' t j0 = pipeline_from d t j0.
Proof.
  intros H Ht. unfold pipeline_from. apply map_ext_in. intros j Hj.
  apply in_seq in Hj. apply (placed_agree d d' t'); [exact H|lia].
Qed.

Lemma realized_demand_agree (d d' : DataFrame) (t : nat) :
  demand d' = demand d -> forecast d' = forecast d ->
  realized_demand d' t = realized_demand d t.
Proof. intros Hd Hf. unfold realized_demand. now rewrite Hd, Hf. Qed.

Lemma period_record_agree (t : nat) (d d' : DataFrame) :
  1 <= lead_time -> agree_upto t d d' -> period_record d t -> period_record d' t.
Proof.
  intros HL (Hd & Hf & Hc) (R1 & R2 & R3 & R4 & R5 & R6).
  assert (Hq : forall j, (j < t)%nat -> order_quantity d' !! j = order_quantity d !! j)
    by (intros j Hj; apply (Hc j); lia).
  destruct (Hc t (le_n t)) as (C1 & C2 & C3 & C4 & C5 & C6).
  assert (Hoh : at_ (on_hand_inventory d') t = at_ (on_hand_inventory d) t)
    by (unfold at_; now rewrite C2).
  assert (Hss : at_ (safety_stock_target d') t = at_ (safety_stock_target d) t)
    by (unfold at_; now rewrite C3).
  assert (Hen : at_ (ending_inventory d') t = at_ (ending_inventory d) t)
    by (unfold at_; now rewrite C6).
  assert (Hpe : prev_end d' t = prev_end d t).
  { destruct t as [|t']; [reflexivity|]. simpl. unfold at_.
    destruct (Hc t') as (_ & _ & _ & _ & _ & E); [lia|]. now rewrite E. }
  assert (Har : arrival d' t = arrival d t)
    by (apply (placed_agree d d' t); [exact Hq|lia]).
  assert (Hpi : pipeline d' t = pipeline d t)
    by (apply (pipeline_from_agree d d' t t); [exact Hq|lia]).
  assert (Hre : realized_demand d' t = realized_demand d t)
    by now apply realized_demand_agree.
  unfold period_record.
  rewrite C1, C2, C3, C4, C5, C6, Hoh, Hss, Hen, Hpe, Har, Hpi, Hre, Hf.
  repeat split; assumption.
Qed.

Lemma lookup_pipeline_from (d : DataFrame) (t j0 i : nat) :
  (i < Z.to_nat lead_time - j0)%nat ->
  pipeline_from d t j0 !! i =
    Some (placed d (Z.of_nat t - lead_time + Z.of_nat (j0 + i))).
Proof.
  intros H. unfold pipeline_from.
  change (map ?f ?l) with (f <$> l).
  rewrite list_lookup_fmap.
  rewrite (proj2 (lookup_seq j0 _ i (j0 + i)%nat)) by lia. reflexivity.
Qed.

Lemma length_pipeline_from (d : DataFrame) (t j0 : nat) :
  length (pipeline_from d t j0) = (Z.to_nat lead_time - j0)%nat.
Proof. unfold pipeline_from. now rewrite length_map, length_seq. Qed.

Lemma pipeline_from_cons (d : DataFrame) (t : nat) :
  1 <= lead_time ->
  pipeline_from d t 0 = arrival d t :: pipeline d t.
Proof.
  intros HL. unfold pipeline, pipeline_from, arrival.
  destruct (Z.to_nat lead_time) as [|m] eqn:E; [lia|].
  simpl. f_equal; [f_equal; lia|]. now rewrite Nat.sub_0_r.
Qed.

(** Pushing the order of period [t] turns the pipeline seen from [t] into
    the queue seen from [t + 1]. *)
Lemma pipeline_push (d d' : DataFrame) (t : nat) (o : num) :
  1 <= lead_time ->
  (t < length (order_quantity d))%nat ->
  order_quantity d' = <[t := o]> (order_quantity d) ->
  pipeline_from d' (S t) 0 = pipeline d t ++ [o].
Proof.
  intros HL Ht Hq. apply list_eq. intros i.
  destruct (decide (i < Z.to_nat lead_time)%nat) as [Hi|Hi].
  - rewrite lookup_pipeline_from by lia.
    destruct (decide (i < Z.to_nat lead_time - 1)%nat) as [Hi'|Hi'].
    + rewrite lookup_app_l by (unfold pipeline; rewrite length_pipeline_from; lia).
      unfold pipeline. rewrite lookup_pipeline_from by lia. f_equal.
      replace (Z.of_nat (S t) - lead_time + Z.of_nat (0 + i))
        with (Z.of_nat t - lead_time + Z.of_nat (1 + i)) by lia.
      unfold placed, at_.
      destruct (Z.ltb_spec (Z.of_nat t - lead_time + Z.of_nat (1 + i)) 0);
        [reflexivity|].
      rewrite Hq, list_lookup_insert_ne by lia. reflexivity.
    + rewrite lookup_app_r by (unfold pipeline; rewrite length_pipeline_from; lia).
      unfold pipeline. rewrite length_pipeline_from.
      replace (i - (Z.to_nat lead_time - 1))%nat with 0%nat by lia.
      change ([o] !! 0%nat) with (Some o). f_equal.
      replace (Z.of_nat (S t) - lead_time + Z.of_nat (0 + i)) with (Z.of_nat t) by lia.
      unfold placed, at_.
      destruct (Z.ltb_spec (Z.of_nat t) 0); [lia|].
      rewrite Nat2Z.id, Hq, list_lookup_insert_eq by lia. reflexivity.
  - rewrite (proj2 (lookup_ge_None _ i)) by (rewrite length_pipeline_from; lia).
    symmetry. apply lookup_ge_None.
    rewrite length_app. unfold pipeline. rewrite length_pipeline_from. simpl. lia.
Qed.

(** ** The set-up before the loop *)

Lemma length_error_marked : length (error df_marked) = n_periods.
Proof.
  unfold df_marked, assign_upto, df_init. simpl.
  rewrite length_app, length_take, length_drop, length_zip_with, length_replicate.
  rewrite !length_map. fold n_periods. lia.
Qed.

Lemma last_valid_from_spec (col : list num) (i : nat) :
  match last_valid_from i col with
  | Some j =>
      (i <= j)%nat /\ (j < i + length col)%nat
      /\ (exists q, col !! (j - i)%nat = Some (Num q))
      /\ forall m, (j - i < m)%nat -> (m < length col)%nat -> col !! m = Some NaN
  | None => forall m, (m < length col)%nat -> col !! m = Some NaN
  end.
Proof.
  revert i. induction col as [|x r IH]; intros i; simpl.
  - intros m Hm. lia.
  - specialize (IH (S i)). destruct (last_valid_from (S i) r) as [j|].
    + destruct IH as (H1 & H2 & (q & Hq) & H3).
      split; [lia|]. split; [lia|]. split.
      * exists q. replace (j - i)%nat with (S (j - S i)) by lia. exact Hq.
      * intros m Hm1 Hm2. destruct m as [|m]; [lia|]. simpl. apply H3; lia.
    + destruct x as [q|]; simpl.
      * split; [lia|]. split; [lia|]. split.
        -- exists q. now rewrite Nat.sub_diag.
        -- intros m Hm1 Hm2. destruct m as [|m]; [lia|]. simpl. apply IH. lia.
      * intros m Hm. destruct m as [|m]; [reflexivity|]. simpl. apply IH. lia.
Qed.

Lemma lookup_demand_init (t : nat) :
  demand df_init !! t = row_demand <$> df !! t.
Proof. unfold df_init. simpl. apply (list_lookup_fmap row_demand). Qed.

Lemma lookup_forecast_init (t : nat) :
  forecast df_init !! t = row_forecast <$> df !! t.
Proof. unfold df_init. simpl. apply (list_lookup_fmap row_forecast). Qed.

(** [last_actual_period] is the position of the last row with a demand
    value, or [-1] when no row has one. *)
Lemma last_actual_period_spec :
  (last_actual_period = -1
   /\ forall t r, df !! t = Some r -> row_demand r = NaN)
  \/ (exists i r, last_actual_period = Z.of_nat i
        /\ df !! i = Some r /\ notna (row_demand r) = true
        /\ forall j r', (i < j)%nat -> df !! j = Some r' -> row_demand r' = NaN).
Proof.
  unfold last_actual_period, last_valid_index.
  pose proof (last_valid_from_spec (demand df_init) 0) as H.
  assert (Hlen : length (demand df_init) = length df)
    by (unfold df_init; simpl; apply length_map).
  destruct (last_valid_from 0 (demand df_init)) as [j|].
  - right. destruct H as (_ & H2 & (q & Hq) & H3).
    rewrite Nat.sub_0_r in Hq. rewrite lookup_demand_init in Hq.
    assert (H3' : forall m, (j < m)%nat -> (m < length df)%nat ->
                    demand df_init !! m = Some NaN)
      by (intros m Hm1 Hm2; apply H3; lia).
    clear H3.
    destruct (df !! j) as [r|] eqn:Er; [|discriminate].
    exists j, r. split; [reflexivity|]. split; [exact Er|]. split.
    + simpl in Hq. injection Hq as ->. reflexivity.
    + intros m r' Hm Hr'. specialize (H3' m).
      rewrite lookup_demand_init, Hr' in H3'. simpl in H3'.
      apply lookup_lt_Some in Hr'.
      assert (E : Some (row_demand r') = Some NaN) by (apply H3'; lia).
      now injection E.
  - left. split; [reflexivity|]. intros t r Hr. rewrite Hlen in H. specialize (H t).
    rewrite lookup_demand_init, Hr in H. simpl in H.
    apply lookup_lt_Some in Hr.
    assert (E : Some (row_demand r) = Some NaN) by (apply H; lia).
    now injection E.
Qed.

Lemma last_actual_period_bound :
  -1 <= last_actual_period < Z.of_nat n_periods.
Proof.
  destruct last_actual_period_spec as [(E & _)|(i & r & E & Hi & _)].
  - rewrite E. lia.
  - apply lookup_lt_Some in Hi. unfold n_periods. lia.
Qed.

Lemma lookup_error_marked (t : nat) (r : Row) :
  df !! t = Some r ->
  error df_marked !! t =
    Some (if Z.of_nat t <=? last_actual_period
          then fsub (row_forecast r) (row_demand r) else NaN).
Proof.
  intros Hr. pose proof last_actual_period_bound as Hb.
  pose proof (lookup_lt_Some _ _ _ Hr) as Ht. fold n_periods in Ht.
  unfold df_marked, assign_upto. simpl.
  set (k := Z.to_nat (last_actual_period + 1)).
  assert (Hz : length (zip_with fsub (map row_forecast df) (map row_demand df))
               = n_periods)
    by (rewrite length_zip_with, !length_map; fold n_periods; lia).
  destruct (Z.leb_spec (Z.of_nat t) last_actual_period).
  - rewrite lookup_app_l by (rewrite length_take; lia).
    rewrite lookup_take_lt by lia. rewrite lookup_zip_with.
    change (map ?f ?l) with (f <$> l). rewrite !list_lookup_fmap, Hr. reflexivity.
  - rewrite lookup_app_r by (rewrite length_take; lia).
    rewrite lookup_drop. apply lookup_replicate_2. rewrite length_take. lia.
Qed.

Lemma lookup_is_projection_marked (t : nat) :
  (t < n_periods)%nat ->
  is_projection df_marked !! t =
    Some (if last_actual_period <? Z.of_nat t then 1 else 0).
Proof.
  intros Ht. pose proof last_actual_period_bound as Hb.
  unfold df_marked. simpl.
  destruct (Z.ltb_spec last_actual_period (Z.of_nat t)).
  - apply lookup_assign_from_ge; [lia|]. now rewrite length_replicate.
  - rewrite lookup_assign_from_lt by lia. now apply lookup_replicate_2.
Qed.

(** ** The rolling update *)

Lemma rolling_due_spec (t : nat) :
  (use_rolling_ss = true -> rolling_window_resolved <> 0) ->
  rolling_due t = inr (spec_trigger t).
Proof.
  intros Hrw. unfold rolling_due, spec_trigger.
  destruct use_rolling_ss; [|reflexivity]. simpl.
  destruct (rolling_window_resolved <=? Z.of_nat t); [|reflexivity]. simpl.
  unfold py_mod.
  destruct (Z.eqb_spec rolling_window_resolved 0) as [E|E]; [now apply Hrw in E|].
  reflexivity.
Qed.

Lemma recent_errors_spec (d : DataFrame) (t : nat) :
  error d = error df_marked -> (t <= n_periods)%nat ->
  rolling_window_resolved <= Z.of_nat t -> rolling_window_resolved <> 0 ->
  recent_errors d t = spec_window t.
Proof.
  intros He Ht Hle Hne. unfold recent_errors, spec_window. rewrite He. f_equal.
  destruct (Z.lt_ge_cases rolling_window_resolved 0) as [Hneg|Hpos].
  - rewrite iloc_empty by lia.
    replace (Z.to_nat rolling_window_resolved) with 0%nat by lia. reflexivity.
  - rewrite Z.max_r by lia.
    replace (Z.of_nat t - rolling_window_resolved)
      with (Z.of_nat (t - Z.to_nat rolling_window_resolved)) by lia.
    rewrite iloc_inside by (rewrite ?length_error_marked; lia).
    replace (t - (t - Z.to_nat rolling_window_resolved))%nat
      with (Z.to_nat rolling_window_resolved) by lia.
    apply take_drop_seq. rewrite length_error_marked. lia.
Qed.

Lemma rolling_update_spec (t : nat) (s : State) :
  (use_rolling_ss = true -> rolling_window_resolved <> 0) ->
  error (st_df s) = error df_marked ->
  length (safety_stock_target (st_df s)) = n_periods ->
  (t <= n_periods)%nat ->
  current_ss_target s = spec_target t ->
  (forall i, (t <= i)%nat -> (i < n_periods)%nat ->
     safety_stock_target (st_df s) !! i = Some (spec_target t)) ->
  exists c,
    rolling_update t s =
      inr (mkState (set_safety_stock_target c (st_df s)) (spec_target (S t))
                   (on_hand s) (in_transit_orders s))
    /\ length c = n_periods
    /\ (forall i, (i < t)%nat -> c !! i = safety_stock_target (st_df s) !! i)
    /\ (forall i, (t <= i)%nat -> (i < n_periods)%nat ->
          c !! i = Some (spec_target (S t))).
Proof.
  intros Hrw He Hlen Ht Hcur Hfut.
  assert (Hkeep : spec_target (S t) = spec_target t ->
    exists c,
      (ret s : result State) =
        inr (mkState (set_safety_stock_target c (st_df s)) (spec_target (S t))
                     (on_hand s) (in_transit_orders s))
      /\ length c = n_periods
      /\ (forall i, (i < t)%nat -> c !! i = safety_stock_target (st_df s) !! i)
      /\ (forall i, (t <= i)%nat -> (i < n_periods)%nat ->
            c !! i = Some (spec_target (S t)))).
  { intros E. exists (safety_stock_target (st_df s)). rewrite E, <- Hcur.
    destruct s as [[] cur oh q]. simpl in *.
    repeat split; auto. intros i H1 H2. rewrite Hcur. now apply Hfut. }
  unfold rolling_update. rewrite rolling_due_spec by assumption.
  unfold bind. destruct (spec_trigger t) eqn:Tr.
  - assert (Hb : rolling_window_resolved <= Z.of_nat t /\ rolling_window_resolved <> 0).
    { unfold spec_trigger in Tr. rewrite !andb_true_iff in Tr.
      destruct Tr as [[[Hu H1] _] _]. apply Z.leb_le in H1. auto. }
    rewrite recent_errors_spec by tauto.
    destruct (spec_window t) as [|e es] eqn:W.
    + simpl. apply Hkeep. simpl. now rewrite Tr, W.
    + replace (0 <? length (e :: es))%nat with true by reflexivity.
      assert (Hnew : spec_target (S t) =
                fmul (fmul safety_factor (np_std (e :: es))) time_factor)
        by (simpl; now rewrite Tr, W).
      rewrite <- Hnew.
      exists (assign_from t (spec_target (S t)) (safety_stock_target (st_df s))).
      split; [reflexivity|]. split; [now rewrite length_assign_from|]. split.
      * intros i Hi. now apply lookup_assign_from_lt.
      * intros i H1 H2. apply lookup_assign_from_ge; lia.
  - apply Hkeep. simpl. now rewrite Tr.
Qed.

(** ** One iteration *)

Lemma loop_inv_init : loop_inv 0 state_init.
Proof.
  unfold loop_inv, state_init, cols_fixed, cols_length. cbn [st_df current_ss_target on_hand in_transit_orders].
  repeat apply conj; try reflexivity.
  1-6: unfold df_marked, df_init; simpl; rewrite ?length_assign_from; apply length_replicate.
  - apply list_eq. intros i.
    destruct (decide (i < Z.to_nat lead_time)%nat) as [Hi|Hi].
    + rewrite lookup_replicate_2, lookup_pipeline_from by lia.
      unfold placed.
      destruct (Z.ltb_spec (Z.of_nat 0 - lead_time + Z.of_nat (0 + i)) 0); [reflexivity|lia].
    + rewrite (proj2 (lookup_ge_None _ i)) by (rewrite length_replicate; lia).
      symmetry. apply lookup_ge_None. rewrite length_pipeline_from. lia.
  - intros i _ Hi. simpl. now apply lookup_replicate_2.
  - intros i _ Hi. simpl. now apply lookup_replicate_2.
  - intros t Ht. lia.
Qed.

Lemma place_order_spec (t : nat) (s : State) :
  review_period <> 0 ->
  order_quantity (st_df s) !! t = Some (Num 0) ->
  let o := if Z.of_nat t mod review_period =? 0
           then order_qty_at (forecast (st_df s)) (current_ss_target s) (on_hand s)
                             (in_transit_orders s) t
           else Num 0 in
  place_order t s =
    inr (mkState (set_order_quantity (<[t := o]> (order_quantity (st_df s))) (st_df s))
                 (current_ss_target s) (on_hand s) (in_transit_orders s ++ [o])).
Proof.
  intros Hrp Hz o. unfold place_order, py_mod.
  destruct (Z.eqb_spec review_period 0) as [E|E]; [contradiction|].
  cbn [bind ret]. subst o.
  destruct (Z.of_nat t mod review_period =? 0); [reflexivity|].
  rewrite list_insert_id by assumption.
  destruct s as [[] ? ? ?]. reflexivity.
Qed.

(** What one iteration writes, starting from a state that satisfies the
    invariant. *)
Lemma period_step_spec (k : nat) (s : State) :
  valid_call -> (k < n_periods)%nat -> loop_inv k s ->
  let d := st_df s in
  let ss := spec_target (S k) in
  let oh1 := fadd (prev_end d k) (arrival d k) in
  let o := if Z.of_nat k mod review_period =? 0
           then order_qty_at (forecast d) ss oh1 (pipeline d k) k
           else Num 0 in
  let dem := realized_demand d k in
  let oh2 := if fle dem oh1 then fsub oh1 dem else Num 0 in
  exists s',
    period_step k s = inr s'
    /\ cols_fixed (st_df s')
    /\ order_quantity (st_df s') = <[k := o]> (order_quantity d)
    /\ on_hand_inventory (st_df s') = <[k := oh1]> (on_hand_inventory d)
    /\ length (safety_stock_target (st_df s')) = n_periods
    /\ (forall i, (i < k)%nat ->
          safety_stock_target (st_df s') !! i = safety_stock_target d !! i)
    /\ (forall i, (k <= i)%nat -> (i < n_periods)%nat ->
          safety_stock_target (st_df s') !! i = Some ss)
    /\ below_safety_stock (st_df s') =
         <[k := if flt oh2 ss then 1 else 0]> (below_safety_stock d)
    /\ stockout (st_df s') = <[k := if fle dem oh1 then 0 else 1]> (stockout d)
    /\ ending_inventory (st_df s') = <[k := oh2]> (ending_inventory d)
    /\ current_ss_target s' = ss
    /\ on_hand s' = oh2
    /\ in_transit_orders s' = pipeline d k ++ [o].
Proof.
  intros (HL & Hrp & Hrw) Hk (Hfix & Hlen & Hq & Hz & Hcur & Hss & Hoh & _).
  destruct Hfix as (F1 & F2 & F3 & F4 & F5).
  destruct Hlen as (L1 & L2 & L3 & L4 & L5 & L6).
  destruct (rolling_update_spec k s Hrw F4 L3 (Nat.lt_le_incl _ _ Hk) Hcur Hss)
    as (c & Hru & Hc1 & Hc2 & Hc3).
  intros d ss oh1 o dem oh2.
  unfold period_step. rewrite Hru. cbn [bind].
  unfold receive_order. cbn [in_transit_orders on_hand st_df current_ss_target].
  rewrite Hq, pipeline_from_cons by assumption. cbn [pop0 ret bind fst snd].
  rewrite place_order_spec; [|assumption|].
  2:{ cbn [st_df]. destruct (st_df s); simpl in *. apply Hz; lia. }
  cbn [bind ret st_df current_ss_target on_hand in_transit_orders].
  eexists. split; [reflexivity|].
  rewrite Hoh. subst d ss oh1 o dem oh2.
  destruct s as [[pe de fo oq ohi sst bel sto en er ip] cur oh q].
  unfold cols_fixed.
  cbn [st_df current_ss_target on_hand in_transit_orders fulfil_demand
       set_order_quantity set_on_hand_inventory set_safety_stock_target
       set_below_safety_stock set_stockout set_ending_inventory
       period demand forecast order_quantity on_hand_inventory safety_stock_target
       below_safety_stock stockout ending_inventory error is_projection] in *.
  repeat apply conj; try reflexivity; auto.
Qed.

Lemma loop_inv_step (k : nat) (s : State) :
  valid_call -> (k < n_periods)%nat -> loop_inv k s ->
  exists s', period_step k s = inr s' /\ loop_inv (S k) s'.
Proof.
  intros Hv Hk Hinv.
  destruct (period_step_spec k s Hv Hk Hinv)
    as (s' & Hstep & Hfix' & Eoq & Eoh & Lss & Hss1 & Hss2 & Ebe & Eso & Een
        & Ecur & Eon & Equ).
  exists s'. split; [exact Hstep|].
  destruct Hv as (HL & Hrp & Hrw).
  destruct Hinv as (Hfix & Hlen & Hq & Hz & Hcur & Hss & Hoh & Hrec).
  destruct Hlen as (L1 & L2 & L3 & L4 & L5 & L6).
  assert (Hd : demand (st_df s') = demand (st_df s)).
  { destruct Hfix as (_ & F & _), Hfix' as (_ & F' & _). congruence. }
  assert (Hf : forecast (st_df s') = forecast (st_df s)).
  { destruct Hfix as (_ & _ & F & _), Hfix' as (_ & _ & F' & _). congruence. }
  assert (Hag : forall t, (t < k)%nat -> agree_upto t (st_df s) (st_df s')).
  { intros t Ht. split; [exact Hd|]. split; [exact Hf|].
    intros i Hi. rewrite Eoq, Eoh, Ebe, Eso, Een.
    rewrite !list_lookup_insert_ne by lia. rewrite Hss1 by lia. tauto. }
  split; [exact Hfix'|].
  split.
  { unfold cols_length. rewrite Eoq, Eoh, Ebe, Eso, Een, !length_insert. tauto. }
  split.
  { rewrite Equ. symmetry. apply pipeline_push; [assumption|lia|assumption]. }
  split.
  { intros i H1 H2. rewrite Eoq, list_lookup_insert_ne by lia. apply Hz; lia. }
  split; [exact Ecur|].
  split.
  { intros i H1 H2. apply Hss2; lia. }
  split.
  { rewrite Eon. simpl. rewrite Een. unfold at_.
    rewrite list_lookup_insert_eq by lia. reflexivity. }
  intros t Ht. destruct (decide (t = k)) as [->|Hne].
  - assert (Hpe : prev_end (st_df s') k = prev_end (st_df s) k).
    { destruct k as [|k']; [reflexivity|]. simpl. unfold at_.
      rewrite Een, list_lookup_insert_ne by lia. reflexivity. }
    assert (Hqa : forall j, (j < k)%nat ->
               order_quantity (st_df s') !! j = order_quantity (st_df s) !! j).
    { intros j Hj. rewrite Eoq, list_lookup_insert_ne by lia. reflexivity. }
    assert (Har : arrival (st_df s') k = arrival (st_df s) k)
      by (apply (placed_agree _ _ k); [exact Hqa|lia]).
    assert (Hpi : pipeline (st_df s') k = pipeline (st_df s) k)
      by (apply (pipeline_from_agree _ _ k k); [exact Hqa|lia]).
    assert (Hre : realized_demand (st_df s') k = realized_demand (st_df s) k)
      by now apply realized_demand_agree.
    assert (Aoh : at_ (on_hand_inventory (st_df s')) k =
                  fadd (prev_end (st_df s) k) (arrival (st_df s) k)).
    { unfold at_. rewrite Eoh, list_lookup_insert_eq by lia. reflexivity. }
    assert (Ass : at_ (safety_stock_target (st_df s')) k = spec_target (S k)).
    { unfold at_. rewrite Hss2 by lia. reflexivity. }
    unfold period_record. rewrite Aoh, Ass, Hpe, Har, Hpi, Hre, Hf.
    unfold at_ at 1. rewrite Een, list_lookup_insert_eq by lia. cbn [default].
    rewrite Eoq, Eoh, Ebe, Eso, Hss2 by lia.
    rewrite !list_lookup_insert_eq by lia.
    repeat apply conj; reflexivity.
  - apply (period_record_agree t (st_df s)); [assumption|apply Hag; lia|].
    apply Hrec. lia.
Qed.

(** ** The whole loop *)

Lemma run_periods_app (l1 l2 : list nat) (s : State) :
  run_periods (l1 ++ l2) s = (s1 <- run_periods l1 s ;; run_periods l2 s1).
Proof.
  revert s. induction l1 as [|t l1 IH]; intros s; [reflexivity|].
  simpl. destruct (period_step t s) as [e|s']; simpl; [reflexivity|apply IH].
Qed.

Lemma run_prefix_S (k : nat) :
  run_prefix (S k) = (s <- run_prefix k ;; period_step k s).
Proof.
  unfold run_prefix. rewrite seq_S, run_periods_app. simpl.
  destruct (run_periods (seq 0 k) state_init) as [e|s]; [reflexivity|].
  simpl. now destruct (period_step k s).
Qed.

Lemma run_prefix_inv (k : nat) :
  valid_call -> (k <= n_periods)%nat ->
  exists s, run_prefix k = inr s /\ loop_inv k s.
Proof.
  intros Hv. induction k as [|k IH]; intros Hk.
  - exists state_init. split; [reflexivity|apply loop_inv_init].
  - destruct IH as (s & Hs & Hinv); [lia|].
    destruct (loop_inv_step k s Hv) as (s' & Hs' & Hinv'); [lia|assumption|].
    exists s'. split; [|assumption].
    rewrite run_prefix_S, Hs. exact Hs'.
Qed.

(** On a valid call the simulator returns a table whose every row is
    determined by the rows before it. *)
Lemma simulation_trace :
  valid_call ->
  exists out,
    forecast_periodic_review_inventory = inr out
    /\ cols_fixed out /\ cols_length out
    /\ forall t, (t < n_periods)%nat -> period_record out t.
Proof.
  intros Hv.
  destruct (run_prefix_inv n_periods Hv (le_n _)) as (s & Hs & Hinv).
  exists (st_df s). unfold forecast_periodic_review_inventory.
  unfold run_prefix in Hs. rewrite Hs.
  destruct Hinv as (H1 & H2 & _ & _ & _ & _ & _ & H3). auto.
Qed.

(** ** Calls on which the first iteration raises *)

Lemma first_period_raises (e : exn) :
  df <> [] -> period_step 0 state_init = inl e ->
  forecast_periodic_review_inventory = inl e.
Proof.
  intros Hne H. unfold forecast_periodic_review_inventory, n_periods.
  destruct df as [|r rows]; [contradiction|].
  simpl. unfold n_periods in H. simpl in H. now rewrite H.
Qed.

Lemma zero_window_raises :
  df <> [] -> use_rolling_ss = true -> rolling_window_resolved = 0 ->
  forecast_periodic_review_inventory = inl ZeroDivisionError.
Proof.
  intros Hne Hu Hw. apply first_period_raises; [assumption|].
  unfold period_step, rolling_update, rolling_due. rewrite Hu, Hw. reflexivity.
Qed.

Lemma rolling_update_first :
  (use_rolling_ss = true -> rolling_window_resolved <> 0) ->
  exists s1, rolling_update 0 state_init = inr s1
    /\ in_transit_orders s1 = in_transit_orders state_init
    /\ order_quantity (st_df s1) = order_quantity (st_df state_init).
Proof.
  intros Hrw.
  destruct loop_inv_init as ((_ & _ & _ & F4 & _) & (_ & _ & L3 & _) & _ & _ & Hcur & Hss & _).
  destruct (rolling_update_spec 0 state_init Hrw F4 L3 (Nat.le_0_l _) Hcur Hss)
    as (c & Hru & _).
  eexists. split; [exact Hru|]. split; reflexivity.
Qed.

Lemma empty_queue_raises :
  df <> [] -> (use_rolling_ss = true -> rolling_window_resolved <> 0) ->
  lead_time <= 0 ->
  forecast_periodic_review_inventory = inl IndexError.
Proof.
  intros Hne Hrw HL. apply first_period_raises; [assumption|].
  destruct (rolling_update_first Hrw) as (s1 & Hru & Hq & _).
  unfold period_step. rewrite Hru. cbn [bind]. unfold receive_order. rewrite Hq.
  unfold state_init. cbn [in_transit_orders].
  replace (Z.to_nat lead_time) with 0%nat by lia. reflexivity.
Qed.

Lemma zero_review_raises :
  df <> [] -> (use_rolling_ss = true -> rolling_window_resolved <> 0) ->
  1 <= lead_time -> review_period = 0 ->
  forecast_periodic_review_inventory = inl ZeroDivisionError.
Proof.
  intros Hne Hrw HL Hrp. apply first_period_raises; [assumption|].
  destruct (rolling_update_first Hrw) as (s1 & Hru & Hq & _).
  unfold period_step. rewrite Hru. cbn [bind]. unfold receive_order. rewrite Hq.
  unfold state_init. cbn [in_transit_orders].
  destruct (Z.to_nat lead_time) as [|m] eqn:E; [lia|].
  cbn [replicate pop0 ret bind]. unfold place_order, py_mod. rewrite Hrp. reflexivity.
Qed.

Lemma invalid_call_raises :
  df <> [] -> ~ valid_call -> exists e, forecast_periodic_review_inventory = inl e.
Proof.
  intros Hne Hnv.
  destruct use_rolling_ss eqn:Hu.
  - destruct (Z.eqb_spec rolling_window_resolved 0) as [E|E].
    + eexists. now apply zero_window_raises.
    + destruct (Z.leb_spec lead_time 0).
      * eexists. apply empty_queue_raises; auto.
      * destruct (Z.eqb_spec review_period 0) as [E'|E'].
        -- eexists. apply zero_review_raises; auto. lia.
        -- exfalso. apply Hnv. split; [lia|]. split; auto.
  - destruct (Z.leb_spec lead_time 0).
    + eexists. apply empty_queue_raises; auto. congruence.
    + destruct (Z.eqb_spec review_period 0) as [E'|E'].
      * eexists. apply zero_review_raises; auto; [congruence|lia].
      * exfalso. apply Hnv. split; [lia|]. split; [auto|congruence].
Qed.

(** X16. On a non-empty series the simulator returns a table exactly on
    the valid calls ([lead_time >= 1], [review_period <> 0], and a rolling
    window other than 0 when rolling is on); on every other call it
    raises. *)
Lemma returns_iff_valid :
  df <> [] ->
  (exists out, forecast_periodic_review_inventory = inr out) <-> valid_call.
Proof.
  intros Hne. split.
  - intros (out & Hout).
    destruct (Z.leb_spec lead_time 0) as [HL|HL].
    + destruct (invalid_call_raises Hne) as (e & He); [|congruence].
      intros (H & _). lia.
    + destruct (Z.eqb_spec review_period 0) as [Hr|Hr].
      * destruct (invalid_call_raises Hne) as (e & He); [|congruence].
        intros (_ & H & _). contradiction.
      * split; [lia|]. split; [exact Hr|]. intros Hu Hw.
        rewrite (zero_window_raises Hne Hu Hw) in Hout. discriminate.
  - intros Hv. destruct (simulation_trace Hv) as (out & Hout & _). now exists out.
Qed.

Lemma empty_series_returns :
  df = [] -> forecast_periodic_review_inventory = inr (st_df state_init).
Proof.
  intros E. unfold forecast_periodic_review_inventory, n_periods. now rewrite E.
Qed.

(** ** Properties of the returned table *)

Lemma realized_demand_row (d : DataFrame) (t : nat) (r : Row) :
  cols_fixed d -> df !! t = Some r ->
  realized_demand d t =
    if Z.of_nat t <=? last_actual_period then row_demand r else row_forecast r.
Proof.
  intros (_ & Hd & Hf & _) Hr. unfold realized_demand, at_. rewrite Hd, Hf.
  change (demand df_marked) with (demand df_init).
  change (forecast df_marked) with (forecast df_init).
  rewrite lookup_demand_init, lookup_forecast_init, Hr. reflexivity.
Qed.

Lemma ending_nonneg (d : DataFrame) (t : nat) :
  period_record d t -> nonneg (at_ (ending_inventory d) t).
Proof.
  intros (_ & _ & R3 & _). rewrite (at_lookup _ _ _ R3).
  destruct (fle _ _) eqn:E; [now apply fle_fsub_nonneg|simpl; lra].
Qed.

Lemma order_nonneg (d : DataFrame) (t : nat) :
  period_record d t -> nonneg (at_ (order_quantity d) t).
Proof.
  intros (_ & R2 & _). rewrite (at_lookup _ _ _ R2).
  destruct (_ =? 0); [apply py_max0_nonneg|simpl; lra].
Qed.

Lemma arrival_nonneg (d : DataFrame) (t : nat) :
  1 <= lead_time ->
  (forall i, (i < t)%nat -> period_record d i) -> nonneg (arrival d t).
Proof.
  intros HL H. unfold arrival, placed.
  destruct (Z.ltb_spec (Z.of_nat t - lead_time) 0); [simpl; lra|].
  apply order_nonneg, H. lia.
Qed.

(** C4, as the code has it. On a valid call every row of the returned table obeys
    conservation: without stockout the ending inventory is the recorded
    pre-demand on-hand inventory minus the realized demand (the actual
    demand up to [last_actual_period], the forecast after it), with
    stockout it is 0. The pre-demand on-hand inventory is present and not
    negative at every period after the first, and at the first one too
    when [initial_inventory] is present and not negative. *)
Theorem conservation :
  valid_call ->
  exists out,
    forecast_periodic_review_inventory = inr out
    /\ forall t, (t < n_periods)%nat ->
         exists oh en so,
           on_hand_inventory out !! t = Some oh
           /\ ending_inventory out !! t = Some en
           /\ stockout out !! t = Some so
           /\ (so = 0 \/ so = 1)
           /\ (so = 0 -> en = fsub oh (realized_demand out t))
           /\ (so = 1 -> en = Num 0)
           /\ (nonneg initial_inventory \/ (1 <= t)%nat -> nonneg oh).
Proof.
  intros Hv. destruct (simulation_trace Hv) as (out & Hout & Hfix & Hlen & Hrec).
  exists out. split; [exact Hout|]. intros t Ht.
  pose proof (Hrec t Ht) as (R1 & R2 & R3 & R4 & R5 & R6).
  pose proof (at_lookup _ _ _ R1) as Eoh. cbv zeta in R3, R4. rewrite Eoh in R3, R4.
  eexists _, _, _. split; [exact R1|]. split; [exact R3|]. split; [exact R4|].
  destruct (fle (realized_demand out t) _) eqn:E.
  - split; [now left|]. split; [reflexivity|]. split; [discriminate|].
    intros Hn. apply fadd_nonneg.
    + destruct t as [|t']; simpl.
      * destruct Hn as [Hn|Hn]; [exact Hn|lia].
      * apply ending_nonneg, Hrec. lia.
    + apply arrival_nonneg; [apply Hv|]. intros i Hi. apply Hrec. lia.
  - split; [now right|]. split; [discriminate|]. split; [reflexivity|].
    intros Hn. apply fadd_nonneg.
    + destruct t as [|t']; simpl.
      * destruct Hn as [Hn|Hn]; [exact Hn|lia].
      * apply ending_nonneg, Hrec. lia.
    + apply arrival_nonneg; [apply Hv|]. intros i Hi. apply Hrec. lia.
Qed.

(** C6, as the code has it. [last_actual_period] is the position of the last row
    with a demand value, [-1] when there is none. On a valid call, for
    every row [t] of the returned table, [is_projection[t]] is 1 exactly
    when [t > last_actual_period], and [error[t]] is
    [forecast[t] - demand[t]] when [t <= last_actual_period] and NaN
    after it; so [error[t]] is defined exactly when
    [t <= last_actual_period] and both [demand[t]] and [forecast[t]] are
    present. *)
Theorem projection_partition :
  valid_call ->
  exists out,
    forecast_periodic_review_inventory = inr out
    /\ ((last_actual_period = -1
         /\ forall t r, df !! t = Some r -> row_demand r = NaN)
        \/ (exists i r, last_actual_period = Z.of_nat i
              /\ df !! i = Some r /\ notna (row_demand r) = true
              /\ forall j r', (i < j)%nat -> df !! j = Some r' -> row_demand r' = NaN))
    /\ forall t r, df !! t = Some r ->
         (is_projection out !! t = Some 1 <-> last_actual_period < Z.of_nat t)
         /\ (is_projection out !! t = Some 0 <-> Z.of_nat t <= last_actual_period)
         /\ error out !! t =
              Some (if Z.of_nat t <=? last_actual_period
                    then fsub (row_forecast r) (row_demand r) else NaN)
         /\ (forall e, error out !! t = Some e ->
               notna e =
                 (Z.of_nat t <=? last_actual_period)
                 && notna (row_forecast r) && notna (row_demand r)).
Proof.
  intros Hv. destruct (simulation_trace Hv) as (out & Hout & Hfix & _).
  exists out. split; [exact Hout|]. split; [exact last_actual_period_spec|].
  intros t r Hr. destruct Hfix as (_ & _ & _ & He & Hp).
  pose proof (lookup_lt_Some _ _ _ Hr) as Ht. fold n_periods in Ht.
  rewrite He, Hp, (lookup_error_marked t r Hr), (lookup_is_projection_marked t Ht).
  destruct (Z.ltb_spec last_actual_period (Z.of_nat t));
    destruct (Z.leb_spec (Z.of_nat t) last_actual_period); try lia.
  - repeat split; try (intros; lia || discriminate || reflexivity).
    intros e [= <-]. reflexivity.
  - repeat split; try (intros; lia || discriminate || reflexivity).
    intros e [= <-]. now destruct (row_forecast r), (row_demand r).
Qed.

(** C10. A row at or before [last_actual_period] whose demand is missing
    does not stop the simulation: the comparison of NaN with the on-hand
    inventory is false, so the row is recorded as a stockout with ending
    inventory 0, whatever is on hand. *)
Theorem demand_gap_is_stockout (t : nat) (r : Row) :
  valid_call ->
  df !! t = Some r -> Z.of_nat t <= last_actual_period -> row_demand r = NaN ->
  exists out,
    forecast_periodic_review_inventory = inr out
    /\ stockout out !! t = Some 1
    /\ ending_inventory out !! t = Some (Num 0).
Proof.
  intros Hv Hr Ht Hd. destruct (simulation_trace Hv) as (out & Hout & Hfix & _ & Hrec).
  exists out. split; [exact Hout|].
  destruct (Hrec t) as (_ & _ & R3 & R4 & _); [now apply lookup_lt_Some in Hr|].
  rewrite (realized_demand_row out t r Hfix Hr) in R3, R4.
  destruct (Z.leb_spec (Z.of_nat t) last_actual_period); [|lia].
  rewrite Hd in R3, R4. split; [exact R4|exact R3].
Qed.

(** C3, as the code has it. A row without a forecast value does not make a valid
    call fail: a table is returned. At or before [last_actual_period] the
    row gets an undefined error; after it the missing forecast stands in
    for the demand, compares false with the on-hand inventory, and the
    row is recorded as a stockout with ending inventory 0. *)
Theorem missing_forecast_is_tolerated (t : nat) (r : Row) :
  valid_call ->
  df !! t = Some r -> row_forecast r = NaN ->
  exists out,
    forecast_periodic_review_inventory = inr out
    /\ length (ending_inventory out) = n_periods
    /\ (Z.of_nat t <= last_actual_period -> error out !! t = Some NaN)
    /\ (last_actual_period < Z.of_nat t ->
          stockout out !! t = Some 1 /\ ending_inventory out !! t = Some (Num 0)).
Proof.
  intros Hv Hr Hf. destruct (simulation_trace Hv) as (out & Hout & Hfix & Hlen & Hrec).
  exists out. split; [exact Hout|]. split; [apply Hlen|]. split.
  - intros Ht. destruct Hfix as (_ & _ & _ & He & _).
    rewrite He, (lookup_error_marked t r Hr), Hf.
    now destruct (Z.of_nat t <=? last_actual_period).
  - intros Ht.
    destruct (Hrec t) as (_ & _ & R3 & R4 & _); [now apply lookup_lt_Some in Hr|].
    rewrite (realized_demand_row out t r Hfix Hr) in R3, R4.
    destruct (Z.leb_spec (Z.of_nat t) last_actual_period); [lia|].
    rewrite Hf in R3, R4. split; [exact R4|exact R3].
Qed.

(** C1, as the code has it. With [lead_time >= 1] (and a call that is otherwise
    valid) the quantity ordered at period [t], which is zero outside review
    periods, is added to the on-hand inventory exactly at period
    [t + lead_time]: the pre-demand inventory recorded there is the ending
    inventory of the period before plus that order. The queue starts with
    [lead_time] zeros, which are what arrives during the first
    [lead_time] periods. With [lead_time = 0] a non-empty series is not
    simulated: the queue starts empty and period 0 raises [IndexError]
    when it is popped, or [ZeroDivisionError] from the rolling guard
    before that when rolling is on with a window of 0. *)
Theorem fifo_lead_time_law :
  (valid_call ->
   exists out,
     forecast_periodic_review_inventory = inr out
     /\ in_transit_orders state_init = replicate (Z.to_nat lead_time) (Num 0)
     /\ (forall t, (t < Z.to_nat lead_time)%nat -> (t < n_periods)%nat ->
           on_hand_inventory out !! t = Some (fadd (prev_end out t) (Num 0)))
     /\ (forall t, (t + Z.to_nat lead_time < n_periods)%nat ->
           exists o e,
             order_quantity out !! t = Some o
             /\ (Z.of_nat t mod review_period <> 0 -> o = Num 0)
             /\ ending_inventory out !! (t + Z.to_nat lead_time - 1)%nat = Some e
             /\ on_hand_inventory out !! (t + Z.to_nat lead_time)%nat = Some (fadd e o)))
  /\ (lead_time = 0 -> df <> [] ->
       forecast_periodic_review_inventory =
         inl (if use_rolling_ss && (rolling_window_resolved =? 0)
              then ZeroDivisionError else IndexError)).
Proof.
  split.
  {
  intros Hv. destruct (simulation_trace Hv) as (out & Hout & Hfix & Hlen & Hrec).
  destruct Hv as (HL & _).
  exists out. split; [exact Hout|]. split; [reflexivity|]. split.
  - intros t Ht Hn. destruct (Hrec t Hn) as (R1 & _). rewrite R1.
    unfold arrival, placed.
    destruct (Z.ltb_spec (Z.of_nat t - lead_time) 0); [reflexivity|lia].
  - intros t Ht.
    assert (Harr : arrival out (t + Z.to_nat lead_time) = at_ (order_quantity out) t).
    { unfold arrival, placed.
      replace (Z.of_nat (t + Z.to_nat lead_time) - lead_time) with (Z.of_nat t) by lia.
      destruct (Z.ltb_spec (Z.of_nat t) 0); [lia|]. now rewrite Nat2Z.id. }
    destruct (Hrec (t + Z.to_nat lead_time)%nat Ht) as (R1 & _).
    rewrite Harr in R1. clear Harr.
    replace (t + Z.to_nat lead_time - 1)%nat with (t + (Z.to_nat lead_time - 1))%nat by lia.
    replace (t + Z.to_nat lead_time)%nat
      with (S (t + (Z.to_nat lead_time - 1))) in R1 |- * by lia.
    change (prev_end out (S ?m)) with (at_ (ending_inventory out) m) in R1.
    destruct (Hrec t) as (_ & R2 & _); [lia|].
    destruct (Hrec (t + (Z.to_nat lead_time - 1))%nat) as (_ & _ & R3 & _); [lia|].
    eexists _, _. split; [exact R2|]. split.
    { intros Hm. destruct (Z.eqb_spec (Z.of_nat t mod review_period) 0); [lia|reflexivity]. }
    split; [exact R3|].
    rewrite R1, (at_lookup _ _ _ R2), (at_lookup _ _ _ R3). reflexivity. }
  intros HL Hne. destruct use_rolling_ss eqn:Hu; cbn [andb].
  - destruct (Z.eqb_spec rolling_window_resolved 0) as [E|E].
    + now apply zero_window_raises.
    + apply empty_queue_raises; auto. lia.
  - apply empty_queue_raises; [assumption|congruence|lia].
Qed.

(** C5. On a valid call [order_quantity[t]] is exactly 0 at every period
    with [t mod review_period <> 0]; at the periods with
    [t mod review_period = 0] it is the quantity computed by the order
    rule. In each iteration the oldest entry of the in-transit queue is
    removed and one entry is added at the back (the order at a review
    period, a 0 otherwise), so the queue has length [lead_time] before and
    after every iteration. *)
Theorem review_cadence :
  valid_call ->
  exists out,
    forecast_periodic_review_inventory = inr out
    /\ (forall t, (t < n_periods)%nat -> Z.of_nat t mod review_period <> 0 ->
          order_quantity out !! t = Some (Num 0))
    /\ (forall t, (t < n_periods)%nat -> Z.of_nat t mod review_period = 0 ->
          order_quantity out !! t =
            Some (order_qty_at (forecast out) (at_ (safety_stock_target out) t)
                    (at_ (on_hand_inventory out) t) (pipeline out t) t))
    /\ (forall t, (t < n_periods)%nat ->
          exists s s',
            run_prefix t = inr s /\ period_step t s = inr s'
            /\ length (in_transit_orders s) = Z.to_nat lead_time
            /\ length (in_transit_orders s') = Z.to_nat lead_time
            /\ (Z.of_nat t mod review_period <> 0 ->
                  in_transit_orders s' = tail (in_transit_orders s) ++ [Num 0])
            /\ (Z.of_nat t mod review_period = 0 ->
                  exists o, order_quantity (st_df s') !! t = Some o
                    /\ in_transit_orders s' = tail (in_transit_orders s) ++ [o])).
Proof.
  intros Hv. destruct (simulation_trace Hv) as (out & Hout & Hfix & Hlen & Hrec).
  exists out. split; [exact Hout|]. split; [|split].
  - intros t Ht Hm. destruct (Hrec t Ht) as (_ & R2 & _). rewrite R2.
    destruct (Z.eqb_spec (Z.of_nat t mod review_period) 0); [lia|reflexivity].
  - intros t Ht Hm. destruct (Hrec t Ht) as (_ & R2 & _). rewrite R2, Hm. reflexivity.
  - intros t Ht.
    destruct (run_prefix_inv t Hv) as (s & Hs & Hinv); [lia|].
    destruct (period_step_spec t s Hv Ht Hinv)
      as (s' & Hstep & _ & Eoq & _ & _ & _ & _ & _ & _ & _ & _ & _ & Equ).
    destruct Hinv as (_ & (L1 & _) & Hq & _).
    destruct Hv as (HL & _).
    exists s, s'. split; [exact Hs|]. split; [exact Hstep|].
    rewrite Equ, Hq, pipeline_from_cons by assumption. cbn [tail].
    rewrite length_app. unfold pipeline. cbn [length].
    rewrite !length_pipeline_from.
    split; [lia|]. split; [simpl; lia|]. split.
    + intros Hm. destruct (Z.eqb_spec (Z.of_nat t mod review_period) 0); [lia|reflexivity].
    + intros Hm. rewrite Hm. cbn [Z.eqb]. eexists. split; [|reflexivity].
      rewrite Eoq, Hm. cbn [Z.eqb]. apply list_lookup_insert_eq. lia.
Qed.

(** C7. With the recalculation due at [t] exactly when rolling is enabled,
    [t >= rolling_window], [t mod rolling_window = 0] and
    [t <= last_actual_period], and the window made of the defined errors
    at positions [t - rolling_window .. t - 1]: on a valid call the
    returned [safety_stock_target[t]] is
    [safety_factor * population_std(window) * time_factor] when a
    recalculation is due at [t] and its window is not empty, and otherwise
    the target of the period before ([base_safety_stock] at period 0). So a
    new target holds from its period on until the next recalculation, and
    an empty window keeps the previous target without stopping the
    simulation. *)
Theorem rolling_safety_stock :
  valid_call ->
  exists out,
    forecast_periodic_review_inventory = inr out
    /\ forall t, (t < n_periods)%nat ->
         (spec_trigger t = true -> spec_window t <> [] ->
            safety_stock_target out !! t =
              Some (fmul (fmul safety_factor (np_std (spec_window t))) time_factor))
         /\ (spec_trigger t = false \/ spec_window t = [] ->
              safety_stock_target out !! t =
                Some (match t with
                      | O => base_safety_stock
                      | S t' => at_ (safety_stock_target out) t'
                      end)).
Proof.
  intros Hv. destruct (simulation_trace Hv) as (out & Hout & _ & _ & Hrec).
  exists out. split; [exact Hout|]. intros t Ht.
  destruct (Hrec t Ht) as (_ & _ & _ & _ & _ & R6). rewrite R6.
  assert (Hprev : match t with
                  | O => base_safety_stock
                  | S t' => at_ (safety_stock_target out) t'
                  end = spec_target t).
  { destruct t as [|t']; [reflexivity|].
    destruct (Hrec t') as (_ & _ & _ & _ & _ & R6'); [lia|].
    now apply at_lookup. }
  rewrite Hprev. cbn [spec_target]. split.
  - intros Htr Hw. rewrite Htr. now destruct (spec_window t).
  - intros [Htr|Hw]; [now rewrite Htr|].
    rewrite Hw. now destruct (spec_trigger t).
Qed.

Lemma dropna_all_nan (l : list num) :
  (forall i x, l !! i = Some x -> x = NaN) -> dropna l = [].
Proof.
  induction l as [|x l IH]; intros H; [reflexivity|].
  unfold dropna. rewrite filter_cons.
  rewrite (H 0%nat x eq_refl). simpl.
  apply IH. intros i y Hy. apply (H (S i) y Hy).
Qed.

Lemma no_history_last_actual :
  (forall t r, df !! t = Some r -> row_demand r = NaN) -> last_actual_period = -1.
Proof.
  intros Hall. destruct last_actual_period_spec as [(E & _)|(i & r & _ & Hr & Hn & _)].
  - exact E.
  - rewrite (Hall i r Hr) in Hn. discriminate.
Qed.

Lemma spec_target_no_history (k : nat) :
  last_actual_period = -1 -> spec_target k = base_safety_stock.
Proof.
  intros E. induction k as [|k IH]; [reflexivity|]. cbn [spec_target].
  replace (spec_trigger k) with false; [exact IH|].
  unfold spec_trigger. rewrite E.
  destruct (Z.leb_spec (Z.of_nat k) (-1)); [lia|]. now rewrite andb_false_r.
Qed.

(** C8. When every demand value is missing, [std_error] is
    [0.2 * mean(forecast)] if that mean (taken over the forecasts that are
    present) is positive and 0 otherwise; on a valid call the baseline
    [safety_factor * std_error * time_factor] is the safety-stock target
    of every row, and every row has an undefined error. *)
Theorem no_history_fallback :
  valid_call ->
  (forall t r, df !! t = Some r -> row_demand r = NaN) ->
  let avg_forecast := series_mean (map row_forecast df) in
  std_error_all =
    (if fgt avg_forecast (Num 0) then fmul (Num (2 # 10)) avg_forecast else Num 0)
  /\ base_safety_stock = fmul (fmul safety_factor std_error_all) time_factor
  /\ exists out,
       forecast_periodic_review_inventory = inr out
       /\ forall t, (t < n_periods)%nat ->
            error out !! t = Some NaN
            /\ safety_stock_target out !! t = Some base_safety_stock.
Proof.
  intros Hv Hall avg_forecast.
  pose proof (no_history_last_actual Hall) as Elap.
  assert (Herr : forall t, (t < n_periods)%nat -> error df_marked !! t = Some NaN).
  { intros t Ht. apply lookup_lt_is_Some in Ht as [r Hr].
    rewrite (lookup_error_marked t r Hr), Elap.
    destruct (Z.leb_spec (Z.of_nat t) (-1)); [lia|reflexivity]. }
  split; [|split; [reflexivity|]].
  - unfold std_error_all. rewrite dropna_all_nan; [reflexivity|].
    intros i x Hx. pose proof (lookup_lt_Some _ _ _ Hx) as Hi.
    rewrite length_error_marked in Hi. rewrite (Herr i Hi) in Hx. congruence.
  - destruct (simulation_trace Hv) as (out & Hout & Hfix & _ & Hrec).
    exists out. split; [exact Hout|]. intros t Ht.
    destruct Hfix as (_ & _ & _ & He & _). rewrite He. split; [now apply Herr|].
    destruct (Hrec t Ht) as (_ & _ & _ & _ & _ & R6).
    rewrite R6. f_equal. now apply spec_target_no_history.
Qed.

(** C9. On a valid call with [review_period >= 1], at every review period
    [t] the forecast sum behind the order-up-to level runs over exactly
    [future_periods = min(lead_time + review_period, n - t)] rows, the
    rows [t .. t + future_periods - 1]; there is at least one and the last
    of them is inside the series, at the final review period as at any
    other. *)
Theorem horizon_clipping :
  valid_call -> 1 <= review_period ->
  exists out,
    forecast_periodic_review_inventory = inr out
    /\ forall t, (t < n_periods)%nat -> Z.of_nat t mod review_period = 0 ->
         let fp := Z.to_nat (future_periods t) in
         future_periods t =
           Z.min (lead_time + review_period) (Z.of_nat n_periods - Z.of_nat t)
         /\ (1 <= fp)%nat /\ (t + fp <= n_periods)%nat
         /\ future_window (forecast out) t = map (at_ (forecast out)) (seq t fp)
         /\ order_quantity out !! t =
              Some (py_max0
                      (fsub (fadd (series_sum (map (at_ (forecast out)) (seq t fp)))
                                  (at_ (safety_stock_target out) t))
                            (fadd (at_ (on_hand_inventory out) t)
                                  (py_sum (pipeline out t))))).
Proof.
  intros Hv Hrp. destruct (simulation_trace Hv) as (out & Hout & Hfix & _ & Hrec).
  exists out. split; [exact Hout|]. intros t Ht Hm fp.
  destruct Hv as (HL & _).
  assert (Hfp : 1 <= future_periods t <= Z.of_nat n_periods - Z.of_nat t)
    by (unfold future_periods; lia).
  assert (Hlen : length (forecast out) = n_periods).
  { destruct Hfix as (_ & _ & -> & _). unfold df_marked, df_init. simpl.
    apply length_map. }
  assert (Hwin : future_window (forecast out) t = map (at_ (forecast out)) (seq t fp)).
  { unfold future_window.
    replace (Z.of_nat t + future_periods t) with (Z.of_nat (t + fp)) by lia.
    rewrite iloc_inside by lia.
    replace (t + fp - t)%nat with fp by lia.
    apply take_drop_seq. lia. }
  split; [reflexivity|]. split; [lia|]. split; [lia|]. split; [exact Hwin|].
  destruct (Hrec t Ht) as (_ & R2 & _). rewrite R2, Hm. cbn [Z.eqb].
  unfold order_qty_at. now rewrite Hwin.
Qed.

(** C2, as the code has it. The simulator checks no parameter. On a non-empty series
    a [lead_time <= 0] or a [review_period = 0] makes the first iteration
    raise: [IndexError] when the empty queue is popped,
    [ZeroDivisionError] when the period is reduced modulo 0 (which comes
    first when rolling is enabled with a window of 0); no table is
    returned. An empty series returns the empty table, and a negative
    [review_period] with [lead_time >= 1] (and, when rolling is on, a
    rolling window other than 0) is simulated to the end. *)
Theorem no_parameter_check :
  (df <> [] -> lead_time <= 0 \/ review_period = 0 ->
     forecast_periodic_review_inventory =
       inl (if use_rolling_ss && (rolling_window_resolved =? 0) then ZeroDivisionError
            else if lead_time <=? 0 then IndexError else ZeroDivisionError))
  /\ (df = [] -> forecast_periodic_review_inventory = inr (st_df state_init))
  /\ (review_period < 0 -> 1 <= lead_time ->
       (use_rolling_ss = true -> rolling_window_resolved <> 0) ->
       exists out, forecast_periodic_review_inventory = inr out
         /\ length (order_quantity out) = n_periods).
Proof.
  split; [|split].
  - intros Hne Hbad.
    destruct use_rolling_ss eqn:Hu; cbn [andb].
    + destruct (Z.eqb_spec rolling_window_resolved 0) as [E|E].
      * now apply zero_window_raises.
      * destruct (Z.leb_spec lead_time 0).
        -- apply empty_queue_raises; auto.
        -- apply zero_review_raises; auto; lia.
    + destruct (Z.leb_spec lead_time 0).
      * apply empty_queue_raises; auto. congruence.
      * apply zero_review_raises; auto; [congruence|lia|lia].
  - apply empty_series_returns.
  - intros Hrp HL Hrw.
    destruct (simulation_trace) as (out & Hout & _ & Hlen & _).
    { split; [exact HL|]. split; [lia|exact Hrw]. }
    exists out. split; [exact Hout|apply Hlen].
Qed.

(** ** Further properties of the returned table *)

(** X2. On a valid call every order quantity and every ending inventory
    of the returned table is a number that is not negative, whatever the
    inputs: a NaN or negative demand, forecast, safety factor or initial
    inventory never puts a NaN or a negative value in these columns. *)
Theorem orders_and_stock_not_negative :
  valid_call ->
  exists out,
    forecast_periodic_review_inventory = inr out
    /\ forall t, (t < n_periods)%nat ->
         exists o e,
           order_quantity out !! t = Some o /\ nonneg o
           /\ ending_inventory out !! t = Some e /\ nonneg e.
Proof.
  intros Hv. destruct (simulation_trace Hv) as (out & Hout & _ & _ & Hrec).
  exists out. split; [exact Hout|]. intros t Ht.
  pose proof (Hrec t Ht) as Hr.
  pose proof (order_nonneg out t Hr) as Ho.
  pose proof (ending_nonneg out t Hr) as He.
  destruct Hr as (_ & R2 & R3 & _).
  rewrite (at_lookup _ _ _ R2) in Ho. rewrite (at_lookup _ _ _ R3) in He.
  eexists _, _. split; [exact R2|]. split; [exact Ho|]. split; [exact R3|exact He].
Qed.

(** X3. On a valid call [stockout[t]] is 0 exactly when the realized
    demand of the period is at most the recorded pre-demand on-hand
    inventory, and 1 otherwise, a comparison with NaN on either side
    counting as a stockout. *)
Theorem stockout_criterion :
  valid_call ->
  exists out,
    forecast_periodic_review_inventory = inr out
    /\ forall t, (t < n_periods)%nat ->
         exists oh so,
           on_hand_inventory out !! t = Some oh
           /\ stockout out !! t = Some so
           /\ (so = 0 <-> fle (realized_demand out t) oh = true)
           /\ (so = 1 <-> fle (realized_demand out t) oh = false)
           /\ (realized_demand out t = NaN \/ oh = NaN -> so = 1).
Proof.
  intros Hv. destruct (simulation_trace Hv) as (out & Hout & _ & _ & Hrec).
  exists out. split; [exact Hout|]. intros t Ht.
  destruct (Hrec t Ht) as (R1 & _ & _ & R4 & _).
  pose proof (at_lookup _ _ _ R1) as Eoh. cbv zeta in R4. rewrite Eoh in R4.
  eexists _, _. split; [exact R1|]. split; [exact R4|].
  destruct (fle (realized_demand out t) _) eqn:E.
  - split; [split; intros; [reflexivity|reflexivity]|].
    split; [split; intros; discriminate|].
    intros [Hn|Hn]; rewrite Hn in E.
    + discriminate E.
    + destruct (realized_demand out t); discriminate E.
  - split; [split; intros; discriminate|].
    split; [split; intros; reflexivity|]. intros _. reflexivity.
Qed.

(** X4. On a valid call [below_safety_stock[t]] is 1 exactly when the
    recorded ending inventory of the period is below the recorded
    safety-stock target of the period, and 0 otherwise (also when the
    target is NaN). *)
Theorem below_safety_stock_criterion :
  valid_call ->
  exists out,
    forecast_periodic_review_inventory = inr out
    /\ forall t, (t < n_periods)%nat ->
         exists e ss b,
           ending_inventory out !! t = Some e
           /\ safety_stock_target out !! t = Some ss
           /\ below_safety_stock out !! t = Some b
           /\ (b = 1 <-> flt e ss = true)
           /\ (b = 0 <-> flt e ss = false).
Proof.
  intros Hv. destruct (simulation_trace Hv) as (out & Hout & _ & _ & Hrec).
  exists out. split; [exact Hout|]. intros t Ht.
  destruct (Hrec t Ht) as (_ & _ & R3 & _ & R5 & R6).
  cbv zeta in R5. rewrite (at_lookup _ _ _ R3), (at_lookup _ _ _ R6) in R5.
  eexists _, _, _. split; [exact R3|]. split; [exact R6|]. split; [exact R5|].
  destruct (flt _ _); split; split; intros; reflexivity || discriminate.
Qed.

Lemma spec_target_quiet (k : nat) :
  (forall t, (t < k)%nat -> spec_trigger t = false \/ spec_window t = []) ->
  spec_target k = base_safety_stock.
Proof.
  induction k as [|k IH]; intros H; [reflexivity|]. cbn [spec_target].
  rewrite IH by (intros t Ht; apply H; lia).
  destruct (H k) as [E|E]; [lia| |]; rewrite E; [reflexivity|].
  now destruct (spec_trigger k).
Qed.

Lemma spec_trigger_bounds (t : nat) :
  spec_trigger t = true ->
  use_rolling_ss = true
  /\ rolling_window_resolved <= Z.of_nat t
  /\ Z.of_nat t <= last_actual_period.
Proof.
  unfold spec_trigger. rewrite !andb_true_iff.
  intros [[[H1 H2] _] H3]. apply Z.leb_le in H2, H3. auto.
Qed.

(** X5. On a valid call the safety-stock target is [base_safety_stock] on
    every row when no recalculation can take place: rolling is off, or the
    rolling window is negative (its error window is then always empty), or
    the window is longer than the history ([last_actual_period <
    rolling_window]). *)
Theorem target_constant_without_recalculation :
  valid_call ->
  use_rolling_ss = false
  \/ rolling_window_resolved < 0
  \/ last_actual_period < rolling_window_resolved ->
  exists out,
    forecast_periodic_review_inventory = inr out
    /\ forall t, (t < n_periods)%nat ->
         safety_stock_target out !! t = Some base_safety_stock.
Proof.
  intros Hv Hq. destruct (simulation_trace Hv) as (out & Hout & _ & _ & Hrec).
  exists out. split; [exact Hout|]. intros t Ht.
  destruct (Hrec t Ht) as (_ & _ & _ & _ & _ & R6). rewrite R6. f_equal.
  apply spec_target_quiet. intros u _.
  destruct (spec_trigger u) eqn:Tr; [|now left].
  apply spec_trigger_bounds in Tr as (Hu & Hw & Hl).
  destruct Hq as [Hq|[Hq|Hq]].
  - congruence.
  - right. unfold spec_window.
    replace (Z.to_nat rolling_window_resolved) with 0%nat by lia. reflexivity.
  - lia.
Qed.

Lemma spec_target_after_history (k : nat) :
  (Z.to_nat (last_actual_period + 1) <= k)%nat ->
  spec_target k = spec_target (Z.to_nat (last_actual_period + 1)).
Proof.
  induction k as [|k IH]; intros Hk.
  - replace (Z.to_nat (last_actual_period + 1)) with 0%nat by lia. reflexivity.
  - destruct (decide (Z.to_nat (last_actual_period + 1) = S k)) as [->|Hne];
      [reflexivity|].
    rewrite <- IH by lia. cbn [spec_target].
    destruct (spec_trigger k) eqn:Tr; [|reflexivity].
    apply spec_trigger_bounds in Tr as (_ & _ & Hl). lia.
Qed.

(** X6. On a valid call the rolling recalculation never touches a
    projected row: every row after [last_actual_period] carries the target
    of the last historical row, or [base_safety_stock] when there is no
    historical row. *)
Theorem projection_keeps_last_target :
  valid_call ->
  exists out,
    forecast_periodic_review_inventory = inr out
    /\ forall t, (t < n_periods)%nat -> last_actual_period < Z.of_nat t ->
         safety_stock_target out !! t =
           Some (match Z.to_nat (last_actual_period + 1) with
                 | O => base_safety_stock
                 | S l => at_ (safety_stock_target out) l
                 end).
Proof.
  intros Hv. destruct (simulation_trace Hv) as (out & Hout & _ & _ & Hrec).
  exists out. split; [exact Hout|]. intros t Ht Hl.
  destruct (Hrec t Ht) as (_ & _ & _ & _ & _ & R6). rewrite R6. f_equal.
  rewrite spec_target_after_history by lia.
  destruct (Z.to_nat (last_actual_period + 1)) as [|l] eqn:E; [reflexivity|].
  destruct (Hrec l) as (_ & _ & _ & _ & _ & R6'); [lia|].
  symmetry. now apply at_lookup.
Qed.

(** X7. On a valid call a row whose safety-stock target is NaN (a NaN
    safety factor, or the square root of a negative cover) orders nothing
    and is never flagged as below the target. *)
Theorem nan_target_orders_nothing :
  valid_call ->
  exists out,
    forecast_periodic_review_inventory = inr out
    /\ forall t, (t < n_periods)%nat ->
         safety_stock_target out !! t = Some NaN ->
         order_quantity out !! t = Some (Num 0)
         /\ below_safety_stock out !! t = Some 0.
Proof.
  intros Hv. destruct (simulation_trace Hv) as (out & Hout & _ & _ & Hrec).
  exists out. split; [exact Hout|]. intros t Ht Hss.
  destruct (Hrec t Ht) as (_ & R2 & _ & _ & R5 & _).
  cbv zeta in R2, R5. rewrite (at_lookup _ _ _ Hss) in R2, R5.
  split.
  - rewrite R2. destruct (_ =? 0); [|reflexivity].
    unfold order_qty_at. now destruct (series_sum _).
  - rewrite R5. now destruct (at_ (ending_inventory out) t).
Qed.

(** X8. On a valid call, at a review period whose order-up-to level [s]
    (forecast over the cover plus target) and inventory position [ip]
    (on hand plus in transit) are numbers, the recorded order is the
    difference [s - ip] when the position is below the level, and 0 when
    the position is at or above it. *)
Theorem order_reaches_level :
  valid_call ->
  exists out,
    forecast_periodic_review_inventory = inr out
    /\ forall t (s ip : Q), (t < n_periods)%nat ->
         Z.of_nat t mod review_period = 0 ->
         fadd (series_sum (future_window (forecast out) t))
              (at_ (safety_stock_target out) t) = Num s ->
         fadd (at_ (on_hand_inventory out) t) (py_sum (pipeline out t)) = Num ip ->
         exists o,
           order_quantity out !! t = Some (Num o)
           /\ (ip < s -> o = s - ip)%Q
           /\ (s <= ip -> o = 0)%Q.
Proof.
  intros Hv. destruct (simulation_trace Hv) as (out & Hout & _ & _ & Hrec).
  exists out. split; [exact Hout|]. intros t s ip Ht Hm Hs Hip.
  destruct (Hrec t Ht) as (_ & R2 & _).
  cbv zeta in R2. rewrite Hm in R2. cbn [Z.eqb] in R2.
  unfold order_qty_at in R2. rewrite Hs, Hip in R2.
  unfold py_max0, fgt, flt in R2. cbn [fsub lift2] in R2.
  destruct (Qle_bool (s - ip) 0) eqn:E; cbn [negb] in R2.
  - apply Qle_bool_iff in E. exists 0%Q. split; [exact R2|].
    split; [intros H; lra|reflexivity].
  - assert (Hlt : (0 < s - ip)%Q).
    { destruct (Qlt_le_dec 0 (s - ip)) as [H|H]; [exact H|].
      apply Qle_bool_iff in H. congruence. }
    exists (s - ip)%Q. split; [exact R2|].
    split; [reflexivity|intros H; lra].
Qed.

(** X9. On a valid call, at a period that is not the first (or at any
    period when the initial inventory is present and not negative) and
    whose realized demand is missing or not negative, the ending inventory
    is between 0 and the pre-demand on-hand inventory: serving demand
    never adds stock. *)
Theorem ending_within_on_hand :
  valid_call ->
  exists out,
    forecast_periodic_review_inventory = inr out
    /\ forall t, (t < n_periods)%nat ->
         nonneg initial_inventory \/ (1 <= t)%nat ->
         realized_demand out t = NaN \/ nonneg (realized_demand out t) ->
         exists a b,
           on_hand_inventory out !! t = Some (Num a)
           /\ ending_inventory out !! t = Some (Num b)
           /\ (0 <= b <= a)%Q.
Proof.
  intros Hv. destruct (simulation_trace Hv) as (out & Hout & _ & _ & Hrec).
  exists out. split; [exact Hout|]. intros t Ht Hn Hd.
  pose proof (Hrec t Ht) as (R1 & _ & R3 & _).
  assert (Hoh : nonneg (fadd (prev_end out t) (arrival out t))).
  { apply fadd_nonneg.
    - destruct t as [|t']; simpl.
      + destruct Hn as [Hn|Hn]; [exact Hn|lia].
      + apply ending_nonneg, Hrec. lia.
    - apply arrival_nonneg; [apply Hv|]. intros i Hi. apply Hrec. lia. }
  cbv zeta in R3. rewrite (at_lookup _ _ _ R1) in R3.
  destruct (fadd (prev_end out t) (arrival out t)) as [a|]; [|contradiction].
  simpl in Hoh. exists a.
  destruct (realized_demand out t) as [d|] eqn:Ed.
  - destruct Hd as [Hd|Hd]; [discriminate|]. simpl in Hd.
    cbn [fle] in R3. destruct (Qle_bool d a) eqn:E.
    + apply Qle_bool_iff in E. exists (a - d)%Q.
      split; [exact R1|]. split; [exact R3|]. lra.
    + exists 0%Q. split; [exact R1|]. split; [exact R3|]. lra.
  - exists 0%Q. split; [exact R1|]. split; [exact R3|]. lra.
Qed.

(** ** The selections of the plot *)

Lemma select_app {A} (m1 m2 : list bool) (c1 c2 : list A) :
  length m1 = length c1 ->
  select (m1 ++ m2) (c1 ++ c2) = select m1 c1 ++ select m2 c2.
Proof.
  revert c1. induction m1 as [|b m1 IH]; intros [|x c1] H; try discriminate H.
  - reflexivity.
  - simpl in *. injection H as H. rewrite (IH c1 H). now destruct b.
Qed.

Lemma select_all {A} (c : list A) : select (replicate (length c) true) c = c.
Proof. induction c as [|x c IH]; simpl; [reflexivity|now rewrite IH]. Qed.

Lemma select_none {A} (k : nat) (c : list A) : select (replicate k false) c = [].
Proof.
  revert c. induction k as [|k IH]; intros [|x c]; simpl; try reflexivity. apply IH.
Qed.

Lemma mask_and_all (m : list bool) : mask_and m (replicate (length m) true) = m.
Proof.
  induction m as [|b m IH]; simpl; [reflexivity|].
  unfold mask_and in *. simpl. now rewrite IH, andb_true_r.
Qed.

Lemma mask_and_none (m : list bool) :
  mask_and m (replicate (length m) false) = replicate (length m) false.
Proof.
  induction m as [|b m IH]; simpl; [reflexivity|].
  unfold mask_and in *. simpl. now rewrite IH, andb_false_r.
Qed.

Lemma mask_any_replicate (k : nat) (b : bool) :
  mask_any (replicate k b) = (0 <? k)%nat && b.
Proof.
  unfold mask_any. induction k as [|k IH]; [reflexivity|].
  simpl. rewrite IH. destruct b, k; reflexivity.
Qed.

(** The number of historical rows. *)
Lemma history_length_le :
  (Z.to_nat (last_actual_period + 1) <= n_periods)%nat.
Proof. pose proof last_actual_period_bound. lia. Qed.

(** The projection flag is a block of zeros followed by a block of ones. *)
Lemma is_projection_marked_blocks :
  is_projection df_marked =
    replicate (Z.to_nat (last_actual_period + 1)) 0
    ++ replicate (n_periods - Z.to_nat (last_actual_period + 1)) 1.
Proof.
  pose proof history_length_le as Hk.
  unfold df_marked, df_init, assign_from. simpl.
  rewrite take_replicate, length_replicate. f_equal. f_equal. lia.
Qed.

Lemma hist_mask_blocks (d : DataFrame) :
  is_projection d = is_projection df_marked ->
  hist_mask d =
    replicate (Z.to_nat (last_actual_period + 1)) true
    ++ replicate (n_periods - Z.to_nat (last_actual_period + 1)) false.
Proof.
  intros E. unfold hist_mask. rewrite E, is_projection_marked_blocks.
  change (map ?f ?l) with (f <$> l). now rewrite fmap_app, !fmap_replicate.
Qed.

Lemma proj_mask_blocks (d : DataFrame) :
  is_projection d = is_projection df_marked ->
  proj_mask d =
    replicate (Z.to_nat (last_actual_period + 1)) false
    ++ replicate (n_periods - Z.to_nat (last_actual_period + 1)) true.
Proof.
  intros E. unfold proj_mask. rewrite E, is_projection_marked_blocks.
  change (map ?f ?l) with (f <$> l). now rewrite fmap_app, !fmap_replicate.
Qed.

Lemma select_hist {A} (d : DataFrame) (col : list A) :
  is_projection d = is_projection df_marked -> length col = n_periods ->
  select (hist_mask d) col = take (Z.to_nat (last_actual_period + 1)) col.
Proof.
  intros E Hl. pose proof history_length_le as Hk.
  rewrite (hist_mask_blocks d E).
  rewrite <- (take_drop (Z.to_nat (last_actual_period + 1)) col) at 1.
  rewrite select_app by (rewrite length_replicate, length_take; lia).
  rewrite select_none, app_nil_r.
  rewrite <- (length_take_le col (Z.to_nat (last_actual_period + 1))) at 1 by lia.
  apply select_all.
Qed.

Lemma select_proj {A} (d : DataFrame) (col : list A) :
  is_projection d = is_projection df_marked -> length col = n_periods ->
  select (proj_mask d) col = drop (Z.to_nat (last_actual_period + 1)) col.
Proof.
  intros E Hl. pose proof history_length_le as Hk.
  rewrite (proj_mask_blocks d E).
  rewrite <- (take_drop (Z.to_nat (last_actual_period + 1)) col) at 1.
  rewrite select_app by (rewrite length_replicate, length_take; lia).
  rewrite select_none. cbn [app].
  replace (n_periods - Z.to_nat (last_actual_period + 1))%nat
    with (length (drop (Z.to_nat (last_actual_period + 1)) col))
    by (rewrite length_drop; lia).
  apply select_all.
Qed.

Lemma iloc_last_take {A} (k : nat) (col : list A) (x : A) :
  col !! k = Some x -> iloc_last (take (S k) col) = inr x.
Proof.
  intros H. unfold iloc_last.
  pose proof (lookup_lt_Some _ _ _ H) as Hk.
  rewrite last_lookup, length_take_le by lia. simpl.
  rewrite lookup_take_lt by lia. now rewrite H.
Qed.

Lemma iloc_first_drop {A} (k : nat) (col : list A) (x : A) :
  col !! k = Some x -> iloc_first (drop k col) = inr x.
Proof.
  intros H. unfold iloc_first.
  destruct (drop k col) as [|y r] eqn:E.
  - pose proof (lookup_drop col k 0) as H0. rewrite E, Nat.add_0_r, H in H0.
    discriminate H0.
  - pose proof (lookup_drop col k 0) as H0. rewrite E, Nat.add_0_r, H in H0.
    simpl in H0. now injection H0 as ->.
Qed.

Lemma mask_any_hist (d : DataFrame) :
  is_projection d = is_projection df_marked ->
  mask_any (hist_mask d) = (0 <? Z.to_nat (last_actual_period + 1))%nat.
Proof.
  intros E. rewrite (hist_mask_blocks d E). unfold mask_any.
  rewrite existsb_app. fold (mask_any (replicate (Z.to_nat (last_actual_period + 1)) true)).
  fold (mask_any (replicate (n_periods - Z.to_nat (last_actual_period + 1)) false)).
  rewrite !mask_any_replicate, andb_false_r, andb_true_r, orb_false_r. reflexivity.
Qed.

Lemma mask_any_proj (d : DataFrame) :
  is_projection d = is_projection df_marked ->
  mask_any (proj_mask d) =
    (0 <? n_periods - Z.to_nat (last_actual_period + 1))%nat.
Proof.
  intros E. rewrite (proj_mask_blocks d E). unfold mask_any.
  rewrite existsb_app. fold (mask_any (replicate (Z.to_nat (last_actual_period + 1)) false)).
  fold (mask_any (replicate (n_periods - Z.to_nat (last_actual_period + 1)) true)).
  rewrite !mask_any_replicate, andb_false_r, andb_true_r. reflexivity.
Qed.

Lemma projection_line_due_spec (d : DataFrame) :
  period d = period df_marked ->
  projection_line_due d = true <->
  (0 < Z.to_nat (last_actual_period + 1) < n_periods)%nat.
Proof.
  intros E. unfold projection_line_due. rewrite E.
  change (period df_marked) with (map row_period df). rewrite length_map.
  fold n_periods. rewrite andb_true_iff, Z.leb_le, Z.ltb_lt. lia.
Qed.

(** X10. On the table of a valid call, the vertical line that marks the
    start of the projection is due exactly when the table has both a
    historical and a projected row; the row [last_actual_period + 1] it is
    drawn at then exists and is the first projected row. *)
Theorem projection_line_at_first_projection :
  valid_call ->
  exists out,
    forecast_periodic_review_inventory = inr out
    /\ projection_line_due out = mask_any (hist_mask out) && mask_any (proj_mask out)
    /\ (projection_line_due out = true ->
          exists l p,
            last_actual_period = Z.of_nat l
            /\ period out !! S l = Some p
            /\ is_projection out !! l = Some 0
            /\ is_projection out !! S l = Some 1).
Proof.
  intros Hv. destruct (simulation_trace Hv) as (out & Hout & Hfix & _).
  destruct Hfix as (Fp & _ & _ & _ & Fi).
  exists out. split; [exact Hout|].
  pose proof (projection_line_due_spec out Fp) as Hdue.
  split.
  - rewrite (mask_any_hist out Fi), (mask_any_proj out Fi).
    destruct (projection_line_due out).
    + destruct Hdue as [Hd _]. specialize (Hd eq_refl). symmetry.
      apply andb_true_iff. split; apply Nat.ltb_lt; lia.
    + symmetry. apply andb_false_iff.
      destruct (Nat.ltb_spec 0 (Z.to_nat (last_actual_period + 1))); [|now left].
      right. apply Nat.ltb_ge.
      destruct (Nat.le_gt_cases (n_periods - Z.to_nat (last_actual_period + 1)) 0);
        [assumption|].
      assert (false = true) by (apply Hdue; lia). discriminate.
  - intros Hd. apply Hdue in Hd.
    exists (Z.to_nat last_actual_period).
    assert (Hl : (S (Z.to_nat last_actual_period) < n_periods)%nat) by lia.
    assert (Hp : is_Some (period out !! S (Z.to_nat last_actual_period))).
    { apply lookup_lt_is_Some. rewrite Fp.
      change (period df_marked) with (map row_period df). rewrite length_map.
      exact Hl. }
    destruct Hp as (p & Hp). exists p.
    split; [lia|]. split; [exact Hp|]. rewrite Fi.
    rewrite !lookup_is_projection_marked by lia.
    destruct (Z.ltb_spec last_actual_period (Z.of_nat (Z.to_nat last_actual_period)));
      [lia|].
    destruct (Z.ltb_spec last_actual_period (Z.of_nat (S (Z.to_nat last_actual_period))));
      [|lia].
    split; reflexivity.
Qed.

(** X11. On the table of a valid call the segment that bridges history and
    projection never fails to find its end points: when the table has both
    a historical and a projected row it joins the rows
    [last_actual_period] and [last_actual_period + 1], taking their
    periods and ending inventories, and otherwise nothing is drawn. *)
Theorem bridge_joins_adjacent_rows :
  valid_call ->
  exists out,
    forecast_periodic_review_inventory = inr out
    /\ (projection_line_due out = true ->
          exists l p1 p2 v1 v2,
            last_actual_period = Z.of_nat l
            /\ period out !! l = Some p1 /\ period out !! S l = Some p2
            /\ ending_inventory out !! l = Some v1
            /\ ending_inventory out !! S l = Some v2
            /\ bridge out = inr (Some ((p1, p2), (v1, v2))))
    /\ (projection_line_due out = false -> bridge out = inr None).
Proof.
  intros Hv. destruct (simulation_trace Hv) as (out & Hout & Hfix & Hlen & _).
  destruct Hfix as (Fp & _ & _ & _ & Fi).
  destruct Hlen as (_ & _ & _ & _ & _ & L6).
  assert (Lp : length (period out) = n_periods).
  { rewrite Fp. change (period df_marked) with (map row_period df).
    apply length_map. }
  exists out. split; [exact Hout|].
  pose proof (projection_line_due_spec out Fp) as Hdue.
  unfold bridge. rewrite (mask_any_hist out Fi), (mask_any_proj out Fi).
  rewrite !(select_hist out _ Fi), !(select_proj out _ Fi) by assumption.
  split.
  - intros Hd. apply Hdue in Hd.
    set (l := Z.to_nat last_actual_period).
    assert (Hk : Z.to_nat (last_actual_period + 1) = S l) by lia.
    rewrite Hk in *.
    destruct (lookup_lt_is_Some_2 (period out) l) as (p1 & Hp1); [lia|].
    destruct (lookup_lt_is_Some_2 (period out) (S l)) as (p2 & Hp2); [lia|].
    destruct (lookup_lt_is_Some_2 (ending_inventory out) l) as (v1 & Hv1); [lia|].
    destruct (lookup_lt_is_Some_2 (ending_inventory out) (S l)) as (v2 & Hv2); [lia|].
    exists l, p1, p2, v1, v2.
    split; [lia|]. repeat (split; [assumption|]).
    replace (0 <? n_periods - S l)%nat with true by (symmetry; apply Nat.ltb_lt; lia).
    cbn [Nat.ltb Nat.leb].
    rewrite (iloc_last_take l _ p1 Hp1), (iloc_first_drop (S l) _ p2 Hp2).
    rewrite (iloc_last_take l _ v1 Hv1), (iloc_first_drop (S l) _ v2 Hv2).
    reflexivity.
  - intros Hd.
    destruct (Nat.ltb_spec 0 (n_periods - Z.to_nat (last_actual_period + 1)));
      [|reflexivity].
    destruct (Nat.ltb_spec 0 (Z.to_nat (last_actual_period + 1))); [|reflexivity].
    assert (projection_line_due out = true) by (apply Hdue; lia). congruence.
Qed.

(** X12. On the table of a valid call the two stockout scatters split the
    stockout rows without loss or repetition: the first shows the stockout
    rows among the historical rows, the second those among the projected
    rows, and together, in this order, they are the stockout rows of the
    table. *)
Theorem stockout_scatters_partition {A} (col : list A) :
  valid_call -> length col = n_periods ->
  exists out,
    forecast_periodic_review_inventory = inr out
    /\ let k := Z.to_nat (last_actual_period + 1) in
       stockout_actual out col = select (take k (stockout_mask out)) (take k col)
       /\ stockout_projected out col =
            select (drop k (stockout_mask out)) (drop k col)
       /\ stockout_actual out col ++ stockout_projected out col =
            select (stockout_mask out) col.
Proof.
  intros Hv Hc. destruct (simulation_trace Hv) as (out & Hout & Hfix & Hlen & _).
  destruct Hfix as (_ & _ & _ & _ & Fi).
  destruct Hlen as (_ & _ & _ & _ & L5 & _).
  exists out. split; [exact Hout|]. intros k.
  pose proof history_length_le as Hk. fold k in Hk.
  assert (Lm : length (stockout_mask out) = n_periods)
    by (unfold stockout_mask; rewrite length_map; exact L5).
  set (so := stockout_mask out) in *.
  assert (Ha : stockout_actual out col = select (take k so) (take k col)).
  { unfold stockout_actual. fold so. rewrite (hist_mask_blocks out Fi). fold k.
    rewrite <- (take_drop k so) at 1. unfold mask_and.
    rewrite zip_with_app by (rewrite length_replicate, length_take; lia).
    fold (mask_and (take k so) (replicate k true)).
    fold (mask_and (drop k so) (replicate (n_periods - k) false)).
    replace k with (length (take k so)) at 2 by (rewrite length_take; lia).
    replace (n_periods - k)%nat with (length (drop k so)) by (rewrite length_drop; lia).
    rewrite mask_and_all, mask_and_none.
    rewrite <- (take_drop k col) at 1.
    rewrite select_app by (rewrite !length_take; lia).
    now rewrite select_none, app_nil_r. }
  assert (Hp : stockout_projected out col = select (drop k so) (drop k col)).
  { unfold stockout_projected. fold so. rewrite (proj_mask_blocks out Fi). fold k.
    rewrite <- (take_drop k so) at 1. unfold mask_and.
    rewrite zip_with_app by (rewrite length_replicate, length_take; lia).
    fold (mask_and (take k so) (replicate k false)).
    fold (mask_and (drop k so) (replicate (n_periods - k) true)).
    replace k with (length (take k so)) at 2 by (rewrite length_take; lia).
    replace (n_periods - k)%nat with (length (drop k so)) by (rewrite length_drop; lia).
    rewrite mask_and_all, mask_and_none.
    rewrite <- (take_drop k col) at 1.
    rewrite select_app by (rewrite length_replicate, !length_take; lia).
    now rewrite select_none. }
  split; [exact Ha|]. split; [exact Hp|].
  rewrite Ha, Hp, <- select_app by (rewrite !length_take; lia).
  now rewrite !take_drop.
Qed.

(** ** The loop state between iterations *)

(** X14. On a valid call, when [k] iterations have run the in-transit
    queue holds, oldest first, the quantities ordered at the periods
    [k - lead_time .. k - 1] (a zero for a position before period 0), and
    the running on-hand inventory is the ending inventory recorded for
    period [k - 1] (the initial inventory when [k = 0]). *)
Theorem queue_holds_recent_orders (k : nat) :
  valid_call -> (k <= n_periods)%nat ->
  exists s,
    run_prefix k = inr s
    /\ length (in_transit_orders s) = Z.to_nat lead_time
    /\ (forall j, (j < Z.to_nat lead_time)%nat ->
          in_transit_orders s !! j =
            Some (if Z.of_nat k - lead_time + Z.of_nat j <? 0 then Num 0
                  else at_ (order_quantity (st_df s))
                           (Z.to_nat (Z.of_nat k - lead_time + Z.of_nat j))))
    /\ on_hand s =
         match k with
         | O => initial_inventory
         | S k' => at_ (ending_inventory (st_df s)) k'
         end.
Proof.
  intros Hv Hk. destruct (run_prefix_inv k Hv Hk) as (s & Hs & Hinv).
  destruct Hinv as (_ & _ & Hq & _ & _ & _ & Hoh & _).
  exists s. split; [exact Hs|]. rewrite Hq. split; [|split].
  - rewrite length_pipeline_from. lia.
  - intros j Hj. rewrite lookup_pipeline_from by lia. reflexivity.
  - exact Hoh.
Qed.

(** X15. On a valid call an iteration writes forward only: iteration [k]
    leaves every row before [k] of every column as it was, and the input
    columns, the errors and the projection flags as a whole. *)
Theorem earlier_rows_untouched (k : nat) :
  valid_call -> (k < n_periods)%nat ->
  exists s s',
    run_prefix k = inr s /\ period_step k s = inr s'
    /\ period (st_df s') = period (st_df s)
    /\ demand (st_df s') = demand (st_df s)
    /\ forecast (st_df s') = forecast (st_df s)
    /\ error (st_df s') = error (st_df s)
    /\ is_projection (st_df s') = is_projection (st_df s)
    /\ forall i, (i < k)%nat ->
         order_quantity (st_df s') !! i = order_quantity (st_df s) !! i
         /\ on_hand_inventory (st_df s') !! i = on_hand_inventory (st_df s) !! i
         /\ safety_stock_target (st_df s') !! i = safety_stock_target (st_df s) !! i
         /\ below_safety_stock (st_df s') !! i = below_safety_stock (st_df s) !! i
         /\ stockout (st_df s') !! i = stockout (st_df s) !! i
         /\ ending_inventory (st_df s') !! i = ending_inventory (st_df s) !! i.
Proof.
  intros Hv Hk. destruct (run_prefix_inv k Hv) as (s & Hs & Hinv); [lia|].
  destruct (period_step_spec k s Hv Hk Hinv)
    as (s' & Hstep & Hfix' & Eoq & Eoh & _ & Hss1 & _ & Ebe & Eso & Een & _).
  destruct Hinv as (Hfix & _).
  destruct Hfix as (F1 & F2 & F3 & F4 & F5), Hfix' as (F1' & F2' & F3' & F4' & F5').
  exists s, s'. split; [exact Hs|]. split; [exact Hstep|].
  split; [congruence|]. split; [congruence|]. split; [congruence|].
  split; [congruence|]. split; [congruence|].
  intros i Hi. rewrite Eoq, Eoh, Ebe, Eso, Een.
  rewrite !list_lookup_insert_ne by lia. rewrite Hss1 by lia.
  repeat apply conj; reflexivity.
Qed.

End Simulation.

(** * The properties on concrete tables *)

(** C1, counterexample: with [lead_time = 0] the scenario table is not
    simulated; popping the empty queue raises at period 0. *)
Lemma zero_lead_time_raises :
  forecast_periodic_review_inventory Qsqrt_approx scenario_df 0 3
    (Num (1645 # 1000)) (Num 0) false None true = inl IndexError.
Proof. vm_compute. reflexivity. Qed.

(** C2, counterexample: an empty series and a negative review period are
    both accepted, and a table is returned. *)
Lemma invalid_parameters_accepted :
  forecast_periodic_review_inventory Qsqrt_approx [] 1 3
    (Num (1645 # 1000)) (Num 0) false None true
  = inr (mkDF [] [] [] [] [] [] [] [] [] [] [])
  /\ exists out,
       forecast_periodic_review_inventory Qsqrt_approx scenario_df 1 (-3)
         (Num (1645 # 1000)) (Num 0) false None true = inr out
       /\ stockout out = [1; 1; 1; 1; 1; 1].
Proof.
  split; [vm_compute; reflexivity|].
  eexists. split; vm_compute; reflexivity.
Qed.

(** C3, counterexample: two rows without a forecast, and the table is
    returned all the same. *)
Lemma missing_forecast_accepted :
  exists out,
    forecast_periodic_review_inventory Qsqrt_approx missing_forecast_df 1 3
      (Num (1645 # 1000)) (Num 0) false None true = inr out
    /\ error out !! 1%nat = Some NaN
    /\ stockout out !! 4%nat = Some 1.
Proof.
  eexists. split; [|split]; vm_compute; reflexivity.
Qed.

(** C4, counterexample: a negative initial inventory is recorded as the
    on-hand inventory of period 0. *)
Lemma negative_initial_inventory :
  exists out,
    forecast_periodic_review_inventory Qsqrt_approx scenario_df 1 3
      (Num (1645 # 1000)) (Num (-5)) false None true = inr out
    /\ on_hand_inventory out !! 0%nat = Some (Num (-5))
    /\ flt (Num (-5)) (Num 0) = true.
Proof.
  eexists. split; [|split]; vm_compute; reflexivity.
Qed.

(** C6, counterexample: period 1 is before [last_actual_period = 2] and
    its error is undefined, its demand being missing. *)
Lemma gap_error_undefined :
  exists out,
    forecast_periodic_review_inventory Qsqrt_approx gap_df 1 3
      (Num (1645 # 1000)) (Num 0) false None true = inr out
    /\ last_actual_period gap_df = 2
    /\ error out !! 1%nat = Some NaN.
Proof.
  eexists. split; [|split]; vm_compute; reflexivity.
Qed.

(** The calls used below are valid. *)
Lemma scenario_call_valid : valid_call 1 3 false None.
Proof. split; [lia|]. split; [lia|]. intros H. discriminate H. Defined.

Lemma rolling_call_valid : valid_call 1 1 true (Some 2).
Proof.
  split; [lia|]. split; [lia|]. intros _. unfold rolling_window_resolved. lia.
Defined.

(** C1, witness: the scenario table with [lead_time = 1] and
    [review_period = 3], and the same table with [lead_time = 0]. *)
Lemma fifo_lead_time_law_witness :
  (valid_call 1 3 false None
   /\ exists out,
        forecast_periodic_review_inventory Qsqrt_approx scenario_df 1 3
          (Num (1645 # 1000)) (Num 0) false None true = inr out
        /\ in_transit_orders
             (state_init Qsqrt_approx scenario_df 1 3 (Num (1645 # 1000)) (Num 0) true)
           = replicate (Z.to_nat 1) (Num 0)
        /\ (forall t, (t < Z.to_nat 1)%nat -> (t < n_periods scenario_df)%nat ->
              on_hand_inventory out !! t = Some (fadd (prev_end (Num 0) out t) (Num 0)))
        /\ (forall t, (t + Z.to_nat 1 < n_periods scenario_df)%nat ->
              exists o e,
                order_quantity out !! t = Some o
                /\ (Z.of_nat t mod 3 <> 0 -> o = Num 0)
                /\ ending_inventory out !! (t + Z.to_nat 1 - 1)%nat = Some e
                /\ on_hand_inventory out !! (t + Z.to_nat 1)%nat = Some (fadd e o)))
  /\ (0 = 0 /\ scenario_df <> []
       /\ forecast_periodic_review_inventory Qsqrt_approx scenario_df 0 3
            (Num (1645 # 1000)) (Num 0) false None true = inl IndexError).
Proof.
  split.
  - split; [exact scenario_call_valid|].
    apply (fifo_lead_time_law Qsqrt_approx scenario_df 1 3 (Num (1645 # 1000)) (Num 0)
             false None true). exact scenario_call_valid.
  - split; [reflexivity|]. split; [discriminate|].
    apply (fifo_lead_time_law Qsqrt_approx scenario_df 0 3 (Num (1645 # 1000)) (Num 0)
             false None true); [reflexivity|discriminate].
Defined.

(** C2, witness: a zero review period on the scenario table, an empty
    table, and a negative review period on the scenario table. *)
Lemma no_parameter_check_witness :
  (scenario_df <> [] /\ (1 <= 0 \/ 0 = 0)
   /\ forecast_periodic_review_inventory Qsqrt_approx scenario_df 1 0
        (Num (1645 # 1000)) (Num 0) false None true = inl ZeroDivisionError)
  /\ forecast_periodic_review_inventory Qsqrt_approx [] 1 3
        (Num (1645 # 1000)) (Num 0) false None true
      = inr (st_df (state_init Qsqrt_approx [] 1 3 (Num (1645 # 1000)) (Num 0) true))
  /\ (-3 < 0 /\ 1 <= 1
       /\ exists out,
            forecast_periodic_review_inventory Qsqrt_approx scenario_df 1 (-3)
              (Num (1645 # 1000)) (Num 0) false None true = inr out
            /\ length (order_quantity out) = n_periods scenario_df).
Proof.
  split; [|split].
  - split; [discriminate|]. split; [right; reflexivity|].
    apply (no_parameter_check Qsqrt_approx scenario_df 1 0 (Num (1645 # 1000)) (Num 0)
             false None true); [discriminate|right; reflexivity].
  - apply (no_parameter_check Qsqrt_approx [] 1 3 (Num (1645 # 1000)) (Num 0)
             false None true). reflexivity.
  - split; [lia|]. split; [lia|].
    apply (no_parameter_check Qsqrt_approx scenario_df 1 (-3) (Num (1645 # 1000)) (Num 0)
             false None true); [lia|lia|intros H; discriminate H].
Defined.

(** C3, witness: period 4 of the table with missing forecasts. *)
Lemma missing_forecast_is_tolerated_witness :
  valid_call 1 3 false None
  /\ missing_forecast_df !! 4%nat = Some (mkRow 4 NaN NaN)
  /\ row_forecast (mkRow 4 NaN NaN) = NaN
  /\ exists out,
       forecast_periodic_review_inventory Qsqrt_approx missing_forecast_df 1 3
         (Num (1645 # 1000)) (Num 0) false None true = inr out
       /\ length (ending_inventory out) = n_periods missing_forecast_df
       /\ (Z.of_nat 4 <= last_actual_period missing_forecast_df ->
             error out !! 4%nat = Some NaN)
       /\ (last_actual_period missing_forecast_df < Z.of_nat 4 ->
             stockout out !! 4%nat = Some 1
             /\ ending_inventory out !! 4%nat = Some (Num 0)).
Proof.
  split; [exact scenario_call_valid|]. split; [reflexivity|]. split; [reflexivity|].
  apply (missing_forecast_is_tolerated Qsqrt_approx missing_forecast_df 1 3
           (Num (1645 # 1000)) (Num 0) false None true 4 (mkRow 4 NaN NaN)
           scenario_call_valid); reflexivity.
Defined.

(** C4, witness: the scenario table. *)
Lemma conservation_witness :
  valid_call 1 3 false None
  /\ exists out,
       forecast_periodic_review_inventory Qsqrt_approx scenario_df 1 3
         (Num (1645 # 1000)) (Num 0) false None true = inr out
       /\ forall t, (t < n_periods scenario_df)%nat ->
            exists oh en so,
              on_hand_inventory out !! t = Some oh
              /\ ending_inventory out !! t = Some en
              /\ stockout out !! t = Some so
              /\ (so = 0 \/ so = 1)
              /\ (so = 0 -> en = fsub oh (realized_demand scenario_df out t))
              /\ (so = 1 -> en = Num 0)
              /\ (nonneg (Num 0) \/ (1 <= t)%nat -> nonneg oh).
Proof.
  split; [exact scenario_call_valid|].
  exact (conservation Qsqrt_approx scenario_df 1 3 (Num (1645 # 1000)) (Num 0)
           false None true scenario_call_valid).
Defined.

(** C5, witness: the scenario table. *)
Lemma review_cadence_witness :
  valid_call 1 3 false None
  /\ exists out,
       forecast_periodic_review_inventory Qsqrt_approx scenario_df 1 3
         (Num (1645 # 1000)) (Num 0) false None true = inr out
       /\ (forall t, (t < n_periods scenario_df)%nat -> Z.of_nat t mod 3 <> 0 ->
             order_quantity out !! t = Some (Num 0)).
Proof.
  split; [exact scenario_call_valid|].
  destruct (review_cadence Qsqrt_approx scenario_df 1 3 (Num (1645 # 1000)) (Num 0)
              false None true scenario_call_valid) as (out & Hout & Hzero & _).
  exists out. split; [exact Hout|exact Hzero].
Defined.

(** C6, witness: the table with a hole in the demand. *)
Lemma projection_partition_witness :
  valid_call 1 3 false None
  /\ exists out,
       forecast_periodic_review_inventory Qsqrt_approx gap_df 1 3
         (Num (1645 # 1000)) (Num 0) false None true = inr out
       /\ forall t r, gap_df !! t = Some r ->
            (is_projection out !! t = Some 1 <-> last_actual_period gap_df < Z.of_nat t)
            /\ (is_projection out !! t = Some 0 <-> Z.of_nat t <= last_actual_period gap_df)
            /\ error out !! t =
                 Some (if Z.of_nat t <=? last_actual_period gap_df
                       then fsub (row_forecast r) (row_demand r) else NaN)
            /\ (forall e, error out !! t = Some e ->
                  notna e =
                    (Z.of_nat t <=? last_actual_period gap_df)
                    && notna (row_forecast r) && notna (row_demand r)).
Proof.
  split; [exact scenario_call_valid|].
  destruct (projection_partition Qsqrt_approx gap_df 1 3 (Num (1645 # 1000)) (Num 0)
              false None true scenario_call_valid) as (out & Hout & _ & Hrows).
  exists out. split; [exact Hout|exact Hrows].
Defined.

(** C7, witness: five periods of history, reviewed every period, with a
    rolling window of 2. *)
Lemma rolling_safety_stock_witness :
  valid_call 1 1 true (Some 2)
  /\ exists out,
       forecast_periodic_review_inventory Qsqrt_approx history_df 1 1
         (Num (1645 # 1000)) (Num 0) true (Some 2) true = inr out
       /\ forall t, (t < n_periods history_df)%nat ->
            (spec_trigger history_df 1 true (Some 2) t = true ->
             spec_window history_df 1 (Some 2) t <> [] ->
               safety_stock_target out !! t =
                 Some (fmul (fmul (Num (1645 # 1000))
                                  (np_std Qsqrt_approx (spec_window history_df 1 (Some 2) t)))
                            (time_factor Qsqrt_approx 1 1 true)))
            /\ (spec_trigger history_df 1 true (Some 2) t = false
                 \/ spec_window history_df 1 (Some 2) t = [] ->
                 safety_stock_target out !! t =
                   Some (match t with
                         | O => base_safety_stock Qsqrt_approx history_df 1 1
                                  (Num (1645 # 1000)) true
                         | S t' => at_ (safety_stock_target out) t'
                         end)).
Proof.
  split; [exact rolling_call_valid|].
  exact (rolling_safety_stock Qsqrt_approx history_df 1 1 (Num (1645 # 1000)) (Num 0)
           true (Some 2) true rolling_call_valid).
Defined.

(** C8, witness: the forecast-only table. *)
Lemma no_history_fallback_witness :
  valid_call 1 3 false None
  /\ (forall t r, no_history_df !! t = Some r -> row_demand r = NaN)
  /\ std_error_all Qsqrt_approx no_history_df =
       (if fgt (series_mean (map row_forecast no_history_df)) (Num 0)
        then fmul (Num (2 # 10)) (series_mean (map row_forecast no_history_df))
        else Num 0)
  /\ exists out,
       forecast_periodic_review_inventory Qsqrt_approx no_history_df 1 3
         (Num (1645 # 1000)) (Num 0) false None true = inr out
       /\ forall t, (t < n_periods no_history_df)%nat ->
            error out !! t = Some NaN
            /\ safety_stock_target out !! t =
                 Some (base_safety_stock Qsqrt_approx no_history_df 1 3
                         (Num (1645 # 1000)) true).
Proof.
  assert (Hall : forall t r, no_history_df !! t = Some r -> row_demand r = NaN).
  { intros [|[|[|t]]] r H; simpl in H; try discriminate H;
      injection H as <-; reflexivity. }
  split; [exact scenario_call_valid|]. split; [exact Hall|].
  destruct (no_history_fallback Qsqrt_approx no_history_df 1 3 (Num (1645 # 1000)) (Num 0)
              false None true scenario_call_valid Hall) as (Hstd & _ & Hout).
  split; [exact Hstd|exact Hout].
Defined.

(** C9, witness: the scenario table, whose last review period is 3, with
    three rows left for a cover of four. *)
Lemma horizon_clipping_witness :
  valid_call 1 3 false None /\ 1 <= 3
  /\ exists out,
       forecast_periodic_review_inventory Qsqrt_approx scenario_df 1 3
         (Num (1645 # 1000)) (Num 0) false None true = inr out
       /\ forall t, (t < n_periods scenario_df)%nat -> Z.of_nat t mod 3 = 0 ->
            let fp := Z.to_nat (future_periods scenario_df 1 3 t) in
            future_periods scenario_df 1 3 t =
              Z.min (1 + 3) (Z.of_nat (n_periods scenario_df) - Z.of_nat t)
            /\ (1 <= fp)%nat /\ (t + fp <= n_periods scenario_df)%nat
            /\ future_window scenario_df 1 3 (forecast out) t =
                 map (at_ (forecast out)) (seq t fp)
            /\ order_quantity out !! t =
                 Some (py_max0
                         (fsub (fadd (series_sum (map (at_ (forecast out)) (seq t fp)))
                                     (at_ (safety_stock_target out) t))
                               (fadd (at_ (on_hand_inventory out) t)
                                     (py_sum (pipeline 1 out t))))).
Proof.
  split; [exact scenario_call_valid|]. split; [lia|].
  apply (horizon_clipping Qsqrt_approx scenario_df 1 3 (Num (1645 # 1000)) (Num 0)
           false None true scenario_call_valid). lia.
Defined.

(** C10, witness: period 1 of the table with a hole in the demand. *)
Lemma demand_gap_is_stockout_witness :
  valid_call 1 3 false None
  /\ gap_df !! 1%nat = Some (mkRow 1 NaN (Num 10))
  /\ Z.of_nat 1 <= last_actual_period gap_df
  /\ row_demand (mkRow 1 NaN (Num 10)) = NaN
  /\ exists out,
       forecast_periodic_review_inventory Qsqrt_approx gap_df 1 3
         (Num (1645 # 1000)) (Num 0) false None true = inr out
       /\ stockout out !! 1%nat = Some 1
       /\ ending_inventory out !! 1%nat = Some (Num 0).
Proof.
  assert (Hlap : Z.of_nat 1 <= last_actual_period gap_df)
    by (vm_compute; discriminate).
  split; [exact scenario_call_valid|]. split; [reflexivity|].
  split; [exact Hlap|]. split; [reflexivity|].
  exact (demand_gap_is_stockout Qsqrt_approx gap_df 1 3 (Num (1645 # 1000)) (Num 0)
           false None true 1 (mkRow 1 NaN (Num 10))
           scenario_call_valid eq_refl Hlap eq_refl).
Defined.

(** * Further properties on concrete tables *)

(** X13. With the arguments of the experiment script ([lead_time = 1],
    [review_period = 3], [safety_factor = 1.645], [initial_inventory = 0],
    rolling off), the simulation stage of the call (the period loop, before
    any plotting) raises on no table that carries the default index:
    whatever the rows, the table it builds has the baseline target on
    every row, a pre-demand on-hand inventory that is present and not
    negative, and orders at periods 0, 3, 6, ... only. *)
Theorem experiment_call_returns (sqrtQ : Q -> Q) (df : list Row) :
  exists out,
    forecast_periodic_review_inventory sqrtQ df 1 3 (Num (1645 # 1000)) (Num 0)
      false None true = inr out
    /\ length (ending_inventory out) = length df
    /\ forall t, (t < length df)%nat ->
         safety_stock_target out !! t =
           Some (base_safety_stock sqrtQ df 1 3 (Num (1645 # 1000)) true)
         /\ (exists oh, on_hand_inventory out !! t = Some oh /\ nonneg oh)
         /\ (Z.of_nat t mod 3 <> 0 -> order_quantity out !! t = Some (Num 0)).
Proof.
  destruct (simulation_trace sqrtQ df 1 3 (Num (1645 # 1000)) (Num 0) false None true
              scenario_call_valid) as (out & Hout & _ & Hlen & Hrec).
  exists out. split; [exact Hout|]. split; [apply Hlen|]. intros t Ht.
  destruct (Hrec t Ht) as (R1 & R2 & _ & _ & _ & R6). split; [|split].
  - rewrite R6. f_equal. apply spec_target_quiet. intros u _. now left.
  - eexists. split; [exact R1|]. apply fadd_nonneg.
    + destruct t as [|t']; [simpl; lra|].
      eapply ending_nonneg, Hrec. unfold n_periods. lia.
    + eapply arrival_nonneg; [lia|]. intros i Hi. apply Hrec. unfold n_periods. lia.
  - intros Hm. rewrite R2.
    destruct (Z.eqb_spec (Z.of_nat t mod 3) 0); [lia|reflexivity].
Qed.

Lemma negative_review_call_valid : valid_call 1 (-3) false None.
Proof. split; [lia|]. split; [lia|]. intros H. discriminate H. Defined.

Lemma negative_window_call_valid : valid_call 1 1 true (Some (-2)).
Proof.
  split; [lia|]. split; [lia|]. intros _. unfold rolling_window_resolved. lia.
Defined.

(** X16, witness: the scenario table. *)
Lemma returns_iff_valid_witness :
  scenario_df <> []
  /\ ((exists out, forecast_periodic_review_inventory Qsqrt_approx scenario_df 1 3
         (Num (1645 # 1000)) (Num 0) false None true = inr out) <-> valid_call 1 3 false None).
Proof.
  assert (Hne : scenario_df <> []) by discriminate.
  split; [exact Hne|].
  exact (returns_iff_valid Qsqrt_approx scenario_df 1 3 (Num (1645 # 1000)) (Num 0)
           false None true Hne).
Defined.

(** X2, witness: the scenario table. *)
Lemma orders_and_stock_not_negative_witness :
  valid_call 1 3 false None
  /\ exists out,
       forecast_periodic_review_inventory Qsqrt_approx scenario_df 1 3
         (Num (1645 # 1000)) (Num 0) false None true = inr out
       /\ forall t, (t < n_periods scenario_df)%nat ->
            exists o e,
              order_quantity out !! t = Some o /\ nonneg o
              /\ ending_inventory out !! t = Some e /\ nonneg e.
Proof.
  split; [exact scenario_call_valid|].
  exact (orders_and_stock_not_negative Qsqrt_approx scenario_df 1 3 (Num (1645 # 1000)) (Num 0)
           false None true scenario_call_valid).
Defined.

(** X3, witness: the scenario table. *)
Lemma stockout_criterion_witness :
  valid_call 1 3 false None
  /\ exists out,
       forecast_periodic_review_inventory Qsqrt_approx scenario_df 1 3
         (Num (1645 # 1000)) (Num 0) false None true = inr out
       /\ forall t, (t < n_periods scenario_df)%nat ->
            exists oh so,
              on_hand_inventory out !! t = Some oh
              /\ stockout out !! t = Some so
              /\ (so = 0 <-> fle (realized_demand scenario_df out t) oh = true)
              /\ (so = 1 <-> fle (realized_demand scenario_df out t) oh = false)
              /\ (realized_demand scenario_df out t = NaN \/ oh = NaN -> so = 1).
Proof.
  split; [exact scenario_call_valid|].
  exact (stockout_criterion Qsqrt_approx scenario_df 1 3 (Num (1645 # 1000)) (Num 0)
           false None true scenario_call_valid).
Defined.

(** X4, witness: the scenario table. *)
Lemma below_safety_stock_criterion_witness :
  valid_call 1 3 false None
  /\ exists out,
       forecast_periodic_review_inventory Qsqrt_approx scenario_df 1 3
         (Num (1645 # 1000)) (Num 0) false None true = inr out
       /\ forall t, (t < n_periods scenario_df)%nat ->
            exists e ss b,
              ending_inventory out !! t = Some e
              /\ safety_stock_target out !! t = Some ss
              /\ below_safety_stock out !! t = Some b
              /\ (b = 1 <-> flt e ss = true)
              /\ (b = 0 <-> flt e ss = false).
Proof.
  split; [exact scenario_call_valid|].
  exact (below_safety_stock_criterion Qsqrt_approx scenario_df 1 3 (Num (1645 # 1000)) (Num 0)
           false None true scenario_call_valid).
Defined.

(** X5, witness: the history table with rolling on and a window of -2. *)
Lemma target_constant_without_recalculation_witness :
  valid_call 1 1 true (Some (-2))
  /\ rolling_window_resolved 1 (Some (-2)) < 0
  /\ exists out,
       forecast_periodic_review_inventory Qsqrt_approx history_df 1 1
         (Num (1645 # 1000)) (Num 0) true (Some (-2)) true = inr out
       /\ forall t, (t < n_periods history_df)%nat ->
            safety_stock_target out !! t =
              Some (base_safety_stock Qsqrt_approx history_df 1 1
                      (Num (1645 # 1000)) true).
Proof.
  assert (Hw : rolling_window_resolved 1 (Some (-2)) < 0)
    by (unfold rolling_window_resolved; lia).
  split; [exact negative_window_call_valid|]. split; [exact Hw|].
  exact (target_constant_without_recalculation Qsqrt_approx history_df 1 1
           (Num (1645 # 1000)) (Num 0) true (Some (-2)) true
           negative_window_call_valid (or_intror (or_introl Hw))).
Defined.

(** X6, witness: the scenario table. *)
Lemma projection_keeps_last_target_witness :
  valid_call 1 3 false None
  /\ exists out,
       forecast_periodic_review_inventory Qsqrt_approx scenario_df 1 3
         (Num (1645 # 1000)) (Num 0) false None true = inr out
       /\ forall t, (t < n_periods scenario_df)%nat ->
            last_actual_period scenario_df < Z.of_nat t ->
            safety_stock_target out !! t =
              Some (match Z.to_nat (last_actual_period scenario_df + 1) with
                    | O => base_safety_stock Qsqrt_approx scenario_df 1 3
                             (Num (1645 # 1000)) true
                    | S l => at_ (safety_stock_target out) l
                    end).
Proof.
  split; [exact scenario_call_valid|].
  exact (projection_keeps_last_target Qsqrt_approx scenario_df 1 3 (Num (1645 # 1000)) (Num 0)
           false None true scenario_call_valid).
Defined.

(** X7, witness: the scenario table with a review period of -3, whose
    target is the NaN square root of -2. *)
Lemma nan_target_orders_nothing_witness :
  valid_call 1 (-3) false None
  /\ exists out,
       forecast_periodic_review_inventory Qsqrt_approx scenario_df 1 (-3)
         (Num (1645 # 1000)) (Num 0) false None true = inr out
       /\ forall t, (t < n_periods scenario_df)%nat ->
            safety_stock_target out !! t = Some NaN ->
            order_quantity out !! t = Some (Num 0)
            /\ below_safety_stock out !! t = Some 0.
Proof.
  split; [exact negative_review_call_valid|].
  exact (nan_target_orders_nothing Qsqrt_approx scenario_df 1 (-3)
           (Num (1645 # 1000)) (Num 0) false None true negative_review_call_valid).
Defined.

(** X8, witness: the scenario table. *)
Lemma order_reaches_level_witness :
  valid_call 1 3 false None
  /\ exists out,
       forecast_periodic_review_inventory Qsqrt_approx scenario_df 1 3
         (Num (1645 # 1000)) (Num 0) false None true = inr out
       /\ forall t (s ip : Q), (t < n_periods scenario_df)%nat ->
            Z.of_nat t mod 3 = 0 ->
            fadd (series_sum (future_window scenario_df 1 3 (forecast out) t))
                 (at_ (safety_stock_target out) t) = Num s ->
            fadd (at_ (on_hand_inventory out) t) (py_sum (pipeline 1 out t)) = Num ip ->
            exists o,
              order_quantity out !! t = Some (Num o)
              /\ (ip < s -> o = s - ip)%Q
              /\ (s <= ip -> o = 0)%Q.
Proof.
  split; [exact scenario_call_valid|].
  exact (order_reaches_level Qsqrt_approx scenario_df 1 3 (Num (1645 # 1000)) (Num 0)
           false None true scenario_call_valid).
Defined.

(** X9, witness: the scenario table. *)
Lemma ending_within_on_hand_witness :
  valid_call 1 3 false None
  /\ exists out,
       forecast_periodic_review_inventory Qsqrt_approx scenario_df 1 3
         (Num (1645 # 1000)) (Num 0) false None true = inr out
       /\ forall t, (t < n_periods scenario_df)%nat ->
            nonneg (Num 0) \/ (1 <= t)%nat ->
            realized_demand scenario_df out t = NaN
            \/ nonneg (realized_demand scenario_df out t) ->
            exists a b,
              on_hand_inventory out !! t = Some (Num a)
              /\ ending_inventory out !! t = Some (Num b)
              /\ (0 <= b <= a)%Q.
Proof.
  split; [exact scenario_call_valid|].
  exact (ending_within_on_hand Qsqrt_approx scenario_df 1 3 (Num (1645 # 1000)) (Num 0)
           false None true scenario_call_valid).
Defined.

(** X10, witness: the scenario table. *)
Lemma projection_line_at_first_projection_witness :
  valid_call 1 3 false None
  /\ exists out,
       forecast_periodic_review_inventory Qsqrt_approx scenario_df 1 3
         (Num (1645 # 1000)) (Num 0) false None true = inr out
       /\ projection_line_due scenario_df out
          = mask_any (hist_mask out) && mask_any (proj_mask out)
       /\ (projection_line_due scenario_df out = true ->
             exists l p,
               last_actual_period scenario_df = Z.of_nat l
               /\ period out !! S l = Some p
               /\ is_projection out !! l = Some 0
               /\ is_projection out !! S l = Some 1).
Proof.
  split; [exact scenario_call_valid|].
  exact (projection_line_at_first_projection Qsqrt_approx scenario_df 1 3 (Num (1645 # 1000)) (Num 0)
           false None true scenario_call_valid).
Defined.

(** X11, witness: the scenario table. *)
Lemma bridge_joins_adjacent_rows_witness :
  valid_call 1 3 false None
  /\ exists out,
       forecast_periodic_review_inventory Qsqrt_approx scenario_df 1 3
         (Num (1645 # 1000)) (Num 0) false None true = inr out
       /\ (projection_line_due scenario_df out = true ->
             exists l p1 p2 v1 v2,
               last_actual_period scenario_df = Z.of_nat l
               /\ period out !! l = Some p1 /\ period out !! S l = Some p2
               /\ ending_inventory out !! l = Some v1
               /\ ending_inventory out !! S l = Some v2
               /\ bridge out = inr (Some ((p1, p2), (v1, v2))))
       /\ (projection_line_due scenario_df out = false -> bridge out = inr None).
Proof.
  split; [exact scenario_call_valid|].
  exact (bridge_joins_adjacent_rows Qsqrt_approx scenario_df 1 3 (Num (1645 # 1000)) (Num 0)
           false None true scenario_call_valid).
Defined.

(** X12, witness: the period column of the scenario table. *)
Lemma stockout_scatters_partition_witness :
  valid_call 1 3 false None
  /\ length [0; 1; 2; 3; 4; 5] = n_periods scenario_df
  /\ exists out,
       forecast_periodic_review_inventory Qsqrt_approx scenario_df 1 3
         (Num (1645 # 1000)) (Num 0) false None true = inr out
       /\ let k := Z.to_nat (last_actual_period scenario_df + 1) in
          stockout_actual out [0; 1; 2; 3; 4; 5]
          = select (take k (stockout_mask out)) (take k [0; 1; 2; 3; 4; 5])
          /\ stockout_projected out [0; 1; 2; 3; 4; 5]
             = select (drop k (stockout_mask out)) (drop k [0; 1; 2; 3; 4; 5])
          /\ stockout_actual out [0; 1; 2; 3; 4; 5]
               ++ stockout_projected out [0; 1; 2; 3; 4; 5]
             = select (stockout_mask out) [0; 1; 2; 3; 4; 5].
Proof.
  split; [exact scenario_call_valid|]. split; [reflexivity|].
  exact (stockout_scatters_partition Qsqrt_approx scenario_df 1 3 (Num (1645 # 1000)) (Num 0)
           false None true [0; 1; 2; 3; 4; 5]
           scenario_call_valid eq_refl).
Defined.

(** X14, witness: the scenario table after four iterations. *)
Lemma queue_holds_recent_orders_witness :
  valid_call 1 3 false None /\ (4 <= n_periods scenario_df)%nat
  /\ exists s,
       run_prefix Qsqrt_approx scenario_df 1 3 (Num (1645 # 1000)) (Num 0)
         false None true 4 = inr s
       /\ length (in_transit_orders s) = Z.to_nat 1
       /\ (forall j, (j < Z.to_nat 1)%nat ->
             in_transit_orders s !! j =
               Some (if Z.of_nat 4 - 1 + Z.of_nat j <? 0 then Num 0
                     else at_ (order_quantity (st_df s))
                              (Z.to_nat (Z.of_nat 4 - 1 + Z.of_nat j))))
       /\ on_hand s = at_ (ending_inventory (st_df s)) 3.
Proof.
  assert (Hk : (4 <= n_periods scenario_df)%nat) by (vm_compute; lia).
  split; [exact scenario_call_valid|]. split; [exact Hk|].
  exact (queue_holds_recent_orders Qsqrt_approx scenario_df 1 3 (Num (1645 # 1000))
           (Num 0) false None true 4 scenario_call_valid Hk).
Defined.

(** X15, witness: iteration 4 on the scenario table. *)
Lemma earlier_rows_untouched_witness :
  valid_call 1 3 false None /\ (4 < n_periods scenario_df)%nat
  /\ exists s s',
       run_prefix Qsqrt_approx scenario_df 1 3 (Num (1645 # 1000)) (Num 0)
         false None true 4 = inr s
       /\ period_step Qsqrt_approx scenario_df 1 3 (Num (1645 # 1000))
            false None true 4 s = inr s'
       /\ forall i, (i < 4)%nat ->
            ending_inventory (st_df s') !! i = ending_inventory (st_df s) !! i.
Proof.
  assert (Hk : (4 < n_periods scenario_df)%nat) by (vm_compute; lia).
  split; [exact scenario_call_valid|]. split; [exact Hk|].
  destruct (earlier_rows_untouched Qsqrt_approx scenario_df 1 3 (Num (1645 # 1000))
              (Num 0) false None true 4 scenario_call_valid Hk)
    as (s & s' & Hs & Hstep & _ & _ & _ & _ & _ & Hrows).
  exists s, s'. split; [exact Hs|]. split; [exact Hstep|].
  intros i Hi. apply (Hrows i Hi).
Defined.
